(** * sharelatex-git: a shallow embedding of [sharelatex-git.py]

    The script mirrors a ShareLaTeX project into a git working directory.
    Every function of the script that the synchronisation flow goes through
    is transcribed below as a computation over an explicit world (file
    system, standard input, trace of interactions), in the order of the
    source file.

    Conventions of the embedding.
    - A Python [str] is a [string] whose characters are code points below
      256: the model speaks about Latin-1 text, and every text that comes
      from outside (arguments, typed lines, file contents, pages, what a
      subprocess prints when it is text) is such text.
    - A Python [bytes] value is a [string] of bytes.  What a subprocess
      prints is either the UTF-8 encoding of a text or bytes that are no
      UTF-8 at all ([output]); [bytes.decode('utf-8')] gives the text back
      in the first case and raises [UnicodeDecodeError] in the second.
    - A Python value that may be [None] is an [option]; truthiness of such a
      value is [truthy].
    - The platform is POSIX ([os.name], [os.path.join], the line separator).
    - What the outside world answers (subprocesses, the network, the clock,
      the zip library, [urllib.parse]) is collected in a record [Env]. *)

From stdpp Require Import gmap strings list fin_maps.
From Stdlib Require Import Ascii DecimalString ZArith Lia.

Local Open Scope Z_scope.
Local Open Scope nat_scope.
Local Open Scope stdpp_scope.

(** ** Python strings *)

Module Py.

Definition code (c : ascii) : nat := nat_of_ascii c.

Definition between (lo hi : nat) (c : ascii) : bool :=
  (lo <=? code c) && (code c <=? hi).

Definition is_digit (c : ascii) : bool := between 48 57 c.
Definition is_ascii_upper (c : ascii) : bool := between 65 90 c.
Definition is_ascii_lower (c : ascii) : bool := between 97 122 c.

(** The character class [[a-zA-Z0-9]]. *)
Definition is_alnum (c : ascii) : bool :=
  is_ascii_lower c || is_ascii_upper c || is_digit c.

(** [str.isspace] on one character (Latin-1 range). *)
Definition is_space (c : ascii) : bool :=
  between 9 13 c || between 28 32 c || (code c =? 133) || (code c =? 160).

(** [str.lower] on one character: A-Z and the Latin-1 capitals. *)
Definition lower_char (c : ascii) : ascii :=
  if is_ascii_upper c || between 192 214 c || between 216 222 c
  then ascii_of_nat (code c + 32) else c.

(** [str.upper] on one character, ASCII letters only (the script applies
    it to the colour names of its own table). *)
Definition upper_char (c : ascii) : ascii :=
  if is_ascii_lower c then ascii_of_nat (code c - 32) else c.

Fixpoint map_chars (f : ascii -> ascii) (s : string) : string :=
  match s with
  | EmptyString => EmptyString
  | String c r => String (f c) (map_chars f r)
  end.

Definition lower : string -> string := map_chars lower_char.
Definition upper : string -> string := map_chars upper_char.

Definition is_empty (s : string) : bool :=
  match s with EmptyString => true | String _ _ => false end.

(** [s.startswith(p)] *)
Fixpoint startswith (p s : string) : bool :=
  match p, s with
  | EmptyString, _ => true
  | String a p', String b s' => Ascii.eqb a b && startswith p' s'
  | String _ _, EmptyString => false
  end.

(** [needle in hay] *)
Fixpoint contains (needle hay : string) : bool :=
  startswith needle hay ||
  match hay with
  | EmptyString => false
  | String _ hay' => contains needle hay'
  end.

Fixpoint drop (n : nat) (s : string) : string :=
  match n, s with
  | S n', String _ r => drop n' r
  | _, _ => s
  end.

Fixpoint take_while (f : ascii -> bool) (s : string) : string :=
  match s with
  | String c r => if f c then String c (take_while f r) else EmptyString
  | EmptyString => EmptyString
  end.

Fixpoint all_chars (f : ascii -> bool) (s : string) : bool :=
  match s with
  | EmptyString => true
  | String c r => f c && all_chars f r
  end.

Fixpoint lstrip (s : string) : string :=
  match s with
  | String c r => if is_space c then lstrip r else s
  | EmptyString => EmptyString
  end.

Fixpoint rstrip (s : string) : string :=
  match s with
  | EmptyString => EmptyString
  | String c r =>
      let r' := rstrip r in
      if is_empty r' && is_space c then EmptyString else String c r'
  end.

(** [s.strip()] *)
Definition strip (s : string) : string := rstrip (lstrip s).

(** [s.endswith("/")] *)
Fixpoint ends_with_slash (s : string) : bool :=
  match s with
  | EmptyString => false
  | String c EmptyString => Ascii.eqb c "/"
  | String _ r => ends_with_slash r
  end.

(** [s * n] *)
Fixpoint repeat_str (s : string) (n : nat) : string :=
  match n with
  | O => EmptyString
  | S n' => s +:+ repeat_str s n'
  end.

(** [s in lines], for a list of strings. *)
Definition in_list (s : string) (l : list string) : bool :=
  existsb (String.eqb s) l.

Definition LF : ascii := ascii_of_nat 10.
Definition CR : ascii := ascii_of_nat 13.
Definition nl : string := String LF EmptyString.

(** [f.readlines()] of a file opened in text mode: the text is cut after
    every line end, and universal newlines turn each of the three line
    ends (LF, CR LF, CR) into one LF. *)
Fixpoint readlines (s : string) : list string :=
  match s with
  | EmptyString => []
  | String c r =>
      if Ascii.eqb c LF then nl :: readlines r
      else if Ascii.eqb c CR then
        match r with
        | String d r' => if Ascii.eqb d LF then nl :: readlines r'
                         else nl :: readlines r
        | EmptyString => [nl]
        end
      else match readlines r with
           | [] => [String c EmptyString]
           | l :: ls => String c l :: ls
           end
  end.

(** [f.readline()] on a freshly opened file. *)
Definition readline (s : string) : string := hd EmptyString (readlines s).

(** [posixpath.join(a, b)] *)
Definition path_join (a b : string) : string :=
  if startswith "/" b then b
  else if is_empty a || ends_with_slash a then a +:+ b
  else a +:+ "/" +:+ b.

(** ['{}'.format(n)] for an integer. *)
Definition str_of_Z (z : Z) : string := NilZero.string_of_int (Z.to_int z).

(** A zero-padded two-digit field of [time.strftime] ([%m], [%d], [%H],
    [%M], [%S]). *)
Definition pad2 (n : Z) : string :=
  if (n <? 10)%Z then "0" +:+ str_of_Z n else str_of_Z n.

(** Truthiness of a value that is [None] or a [str]. *)
Definition truthy (o : option string) : bool :=
  match o with
  | Some s => negb (is_empty s)
  | None => false
  end.

(** ['{}'.format(v)] for a value that is [None] or a [str]. *)
Definition fmt (o : option string) : string :=
  match o with
  | Some s => s
  | None => "None"
  end.

End Py.

(** [repr] of a [bytes] value, as ['{}'.format] prints it. *)
Module Repr.

Definition squote : ascii := ascii_of_nat 39.
Definition dquote : ascii := ascii_of_nat 34.
Definition backslash : ascii := ascii_of_nat 92.

Definition hex_digit (n : nat) : ascii :=
  if n <? 10 then ascii_of_nat (48 + n) else ascii_of_nat (87 + n).

Fixpoint has_char (c : ascii) (s : string) : bool :=
  match s with
  | EmptyString => false
  | String d r => Ascii.eqb c d || has_char c r
  end.

Definition escape (quote c : ascii) : string :=
  if Ascii.eqb c quote || Ascii.eqb c backslash
  then String backslash (String c EmptyString)
  else if Ascii.eqb c (ascii_of_nat 9) then String backslash "t"
  else if Ascii.eqb c Py.LF then String backslash "n"
  else if Ascii.eqb c Py.CR then String backslash "r"
  else if (Py.code c <? 32) || (127 <=? Py.code c)
  then String backslash
         (String "x" (String (hex_digit (Py.code c / 16))
                        (String (hex_digit (Py.code c mod 16)) EmptyString)))
  else String c EmptyString.

Fixpoint body (quote : ascii) (s : string) : string :=
  match s with
  | EmptyString => EmptyString
  | String c r => escape quote c +:+ body quote r
  end.

Definition bytes (s : string) : string :=
  let quote :=
    if has_char squote s && negb (has_char dquote s) then dquote else squote in
  "b" +:+ String quote (body quote s) +:+ String quote EmptyString.

End Repr.

(** ** UTF-8 *)

Module Utf8.

(** The encoding of one character of the model: one byte below 128, two
    bytes from there to 255. *)
Definition encode_char (c : ascii) : string :=
  if Py.code c <? 128 then String c EmptyString
  else String (ascii_of_nat (192 + Py.code c / 64))
         (String (ascii_of_nat (128 + Py.code c mod 64)) EmptyString).

(** [s.encode('utf-8')] *)
Fixpoint encode (s : string) : string :=
  match s with
  | EmptyString => EmptyString
  | String c r => encode_char c +:+ encode r
  end.

(** A continuation byte. *)
Definition cont (b : ascii) : bool := Py.between 128 191 b.

(** Strict UTF-8, as [bytes.decode('utf-8')] accepts it: no overlong
    form, no surrogate, nothing above U+10FFFF. *)
Fixpoint valid (s : string) : bool :=
  match s with
  | EmptyString => true
  | String a r =>
      if Py.code a <? 128 then valid r
      else if Py.between 194 223 a then
        match r with
        | String b r1 => cont b && valid r1
        | _ => false
        end
      else if Py.between 224 239 a then
        match r with
        | String b (String c r2) =>
            (if Py.code a =? 224 then Py.between 160 191 b
             else if Py.code a =? 237 then Py.between 128 159 b
             else cont b) && cont c && valid r2
        | _ => false
        end
      else if Py.between 240 244 a then
        match r with
        | String b (String c (String d r3)) =>
            (if Py.code a =? 240 then Py.between 144 191 b
             else if Py.code a =? 244 then Py.between 128 143 b
             else cont b) && cont c && cont d && valid r3
        | _ => false
        end
      else false
  end.

End Utf8.

(** What a subprocess prints, as [bytes]: the encoding of a text, or bytes
    that do not decode. *)
Inductive output :=
| Text (text : string)
| Garbled (raw : string) (undecodable : Utf8.valid raw = false).

(** The bytes themselves. *)
Definition raw_bytes (o : output) : string :=
  match o with
  | Text text => Utf8.encode text
  | Garbled raw _ => raw
  end.

(** ** The world the script runs in *)

(** An entry of the file system: a regular file with its text, or a
    directory.  The file system maps a path, as the script spells it, to
    its entry; two spellings are two entries. *)
Inductive node :=
| File (content : string)
| Dir.

(** The trace records, in order, every console interaction and every call
    into [subprocess], [urllib], [zipfile], [os] and [shutil]. *)
Inductive event :=
| EvPrint (line : string)
| EvInput (prompt : string)
| EvGetpass (prompt : string)
| EvCmd (cmd : string)
| EvRetrieve (url file : string)
| EvUrlopen (url : string)
| EvExtract (file : string)
| EvRemove (path : string)
| EvListdir (path : string)
| EvMove (src dst : string)
| EvRmdir (path : string)
| EvSession (email : string).

Inductive exn :=
| SystemExit
| OSError
| EOFError
| KeyError
| IndexError
| AttributeError
| ValueError
| URLError
| UnicodeDecodeError
| BadZipFile
| ZlibError
| NotImplementedError
| RuntimeError
| ShutilError
| SessionError.

Record struct_time := {
  tm_year : Z; tm_mon : Z; tm_mday : Z;
  tm_hour : Z; tm_min : Z; tm_sec : Z
}.

(** What [zipfile] makes of a payload: the members it writes, in order
    (paths relative to the current directory, a [Dir] for a directory
    member), and how it ends: [None] when all members are out, or the
    exception it raises then.  [BadZipFile] is the answer to a payload that
    is no zip archive (without any member) or whose structure is damaged;
    a member that does not decompress ends in [ZlibError], a compression
    method the library lacks in [NotImplementedError], an encrypted member
    in [RuntimeError]. *)
Record archive := {
  members : list (string * node);
  ending : option exn
}.

(** The answers of the outside world; each may depend on the trace so far. *)
Record Env := {
  (** [time.localtime()] *)
  localtime : list event -> struct_time;
  (** exit status and combined output of a shell command *)
  shell : list event -> string -> Z * output;
  (** body of the download, [None] when the transfer raises *)
  download : list event -> string -> option string;
  (** text of a page, [None] when [urlopen], [read] or [decode] raises *)
  page : list event -> string -> option string;
  (** [zipfile.ZipFile] on a payload *)
  unzip : string -> archive;
  (** [urllib.parse.urlsplit(i).path], [None] when it raises *)
  urlsplit_path : string -> option string;
  (** [getpass.getpass], [None] when it raises *)
  password : list event -> option string;
  (** the [requests] session of the upload: the lines it prints and whether
      an exception escapes it *)
  session : list event -> string -> string -> list string * bool
}.

Record world := {
  fs : gmap string node;
  stdin : list string;
  trace : list event
}.

Definition add_event (e : event) (w : world) : world :=
  {| fs := fs w; stdin := stdin w; trace := trace w ++ [e] |}.

Definition set_fs (f : gmap string node) (w : world) : world :=
  {| fs := f; stdin := stdin w; trace := trace w |}.

Definition set_stdin (l : list string) (w : world) : world :=
  {| fs := fs w; stdin := l; trace := trace w |}.

(** ** Computations: state and exceptions *)

Inductive outcome (A : Type) :=
| Ret (a : A)
| Raise (e : exn).
Arguments Ret {A} a.
Arguments Raise {A} e.

Definition M (A : Type) : Type := world -> outcome A * world.

Definition ret {A} (a : A) : M A := fun w => (Ret a, w).

Definition raise {A} (e : exn) : M A := fun w => (Raise e, w).

Definition bind {A B} (m : M A) (k : A -> M B) : M B :=
  fun w =>
    match m w with
    | (Ret a, w') => k a w'
    | (Raise e, w') => (Raise e, w')
    end.

Notation "x <- m ;; k" := (bind m (fun x => k))
  (at level 20, m at level 99, k at level 200, right associativity,
   format "'[v' x  <-  m  ;; '/' k ']'").
Notation "m ;;; k" := (bind m (fun _ => k))
  (at level 20, k at level 200, right associativity,
   format "'[v' m  ;;; '/' k ']'").

(** [try: m  except <those caught>: h] *)
Definition try_except {A} (m : M A) (caught : exn -> bool) (h : M A) : M A :=
  fun w =>
    match m w with
    | (Ret a, w') => (Ret a, w')
    | (Raise e, w') => if caught e then h w' else (Raise e, w')
    end.

(** A bare [except:] catches everything, [SystemExit] included. *)
Definition anything (e : exn) : bool := true.

Definition only_BadZipFile (e : exn) : bool :=
  match e with BadZipFile => true | _ => false end.

Definition emit (e : event) : M unit := fun w => (Ret tt, add_event e w).

(** [for x in l: body x] *)
Fixpoint for_each {A} (l : list A) (body : A -> M unit) : M unit :=
  match l with
  | [] => ret tt
  | x :: r => body x ;;; for_each r body
  end.

(** [print(s)]; the console takes every line, so the fallback that
    [Logger.log] has for a line it cannot show is left out. *)
Definition print (s : string) : M unit := emit (EvPrint s).

(** [input(prompt)]: the next line of standard input, [EOFError] at its end. *)
Definition input (prompt : string) : M string :=
  fun w =>
    match stdin w with
    | [] => (Raise EOFError, add_event (EvInput prompt) w)
    | l :: rest => (Ret l, add_event (EvInput prompt) (set_stdin rest w))
    end.

(** [exit()] *)
Definition exit {A} : M A := raise SystemExit.

(** *** Files *)

(** [open(path, 'r')] followed by reading the whole text. *)
Definition open_r (path : string) : M string :=
  fun w =>
    match fs w !! path with
    | Some (File c) => (Ret c, w)
    | _ => (Raise OSError, w)
    end.

(** [open(path, 'a')]: the file is created when it is missing. *)
Definition open_a (path : string) : M unit :=
  fun w =>
    match fs w !! path with
    | Some (File _) => (Ret tt, w)
    | Some Dir => (Raise OSError, w)
    | None => (Ret tt, set_fs (<[path := File EmptyString]> (fs w)) w)
    end.

(** [open(path, 'w')]: the file is created or emptied. *)
Definition open_w (path : string) : M unit :=
  fun w =>
    match fs w !! path with
    | Some Dir => (Raise OSError, w)
    | _ => (Ret tt, set_fs (<[path := File EmptyString]> (fs w)) w)
    end.

(** [f.write(s)] on a file opened for writing or appending. *)
Definition f_write (path s : string) : M unit :=
  fun w =>
    match fs w !! path with
    | Some (File c) => (Ret tt, set_fs (<[path := File (c +:+ s)]> (fs w)) w)
    | _ => (Raise OSError, w)
    end.

(** [os.remove(path)] *)
Definition os_remove (path : string) : M unit :=
  fun w =>
    match fs w !! path with
    | Some (File _) => (Ret tt, add_event (EvRemove path) (set_fs (delete path (fs w)) w))
    | _ => (Raise OSError, add_event (EvRemove path) w)
    end.

(** *** Directories and archives *)

(** The directories above a relative path: [a/b/c] gives [a] and [a/b]. *)
Fixpoint ancestors_from (pre rest : string) : list string :=
  match rest with
  | EmptyString => []
  | String c r =>
      if Ascii.eqb c "/"
      then pre :: ancestors_from (pre +:+ "/") r
      else ancestors_from (pre +:+ String c EmptyString) r
  end.

Definition ancestors (path : string) : list string :=
  ancestors_from EmptyString path.

(** [os.makedirs] of the directories above a member; it fails on a path
    that is a regular file. *)
Fixpoint make_dirs (dirs : list string) (f : gmap string node)
  : option (gmap string node) :=
  match dirs with
  | [] => Some f
  | d :: r =>
      match f !! d with
      | Some (File _) => None
      | _ => make_dirs r (<[d := Dir]> f)
      end
  end.

(** Writing one member of an archive below the current directory. *)
Definition extract_member (m : string * node) (f : gmap string node)
  : option (gmap string node) :=
  match make_dirs (ancestors (fst m)) f with
  | None => None
  | Some f' =>
      match snd m, f' !! fst m with
      | Dir, Some (File _) => None
      | File _, Some Dir => None
      | n, _ => Some (<[fst m := n]> f')
      end
  end.

(** Members are written in order; the first one that cannot be written
    stops the extraction with what was written so far. *)
Fixpoint extract_members (ms : list (string * node)) (f : gmap string node)
  : gmap string node * bool :=
  match ms with
  | [] => (f, true)
  | m :: r =>
      match extract_member m f with
      | None => (f, false)
      | Some f' => extract_members r f'
      end
  end.

(** [ZipFile(file).extractall()] on an archive over the files [f]: the
    members are written in order; a path that is in the way stops it with
    [OSError], otherwise it ends as the archive says. *)
Definition extract_archive (a : archive) (f : gmap string node)
  : outcome unit * gmap string node :=
  let res := extract_members (members a) f in
  if negb (snd res) then (Raise OSError, fst res)
  else match ending a with
       | Some e => (Raise e, fst res)
       | None => (Ret tt, fst res)
       end.

(** The names directly inside directory [dir]. *)
Definition child_name (dir key : string) : option string :=
  let pre := dir +:+ "/" in
  if Py.startswith pre key then
    let name := Py.drop (String.length pre) key in
    if Py.is_empty name || Py.contains "/" name then None else Some name
  else None.

Definition children (dir : string) (f : gmap string node) : list string :=
  omap (fun kv => child_name dir (fst kv)) (map_to_list f).

(** Is [key] the path [src] or a path below it? *)
Definition at_or_below (src key : string) : bool :=
  String.eqb src key || Py.startswith (src +:+ "/") key.

(** [os.rename(src, dst)] on the keys of the file system: the entry and
    everything below it move. *)
Definition rename_key (src dst key : string) : string :=
  if at_or_below src key then dst +:+ Py.drop (String.length src) key else key.

Definition rename_tree (src dst : string) (f : gmap string node)
  : gmap string node :=
  list_to_map (map (fun kv => (rename_key src dst (fst kv), snd kv)) (map_to_list f)).

(** [os.path.basename]: what follows the last slash. *)
Fixpoint basename (path : string) : string :=
  match path with
  | EmptyString => EmptyString
  | String c r =>
      if Py.contains "/" r then basename r
      else if Ascii.eqb c "/" then r
      else path
  end.

(** ** Regular expressions of the script *)

Module Re.

(** A literal under [re.IGNORECASE] at the head of [s]. *)
Definition literal_ci (lit s : string) : bool :=
  Py.startswith (Py.lower lit) (Py.lower s).

(** [p.search(path).group(1)] for the pattern of the URL branch, compiled
    with [re.IGNORECASE]: the literal [/project/], one group holding a
    starred class [a-zA-Z0-9], then a starred dot.  The match is the
    leftmost [/project/]; the group is the longest run of the class after
    it, possibly empty; the starred dot always matches.  [None] stands for
    a search without match. *)
Fixpoint search_project (path : string) : option string :=
  if literal_ci "/project/" path
  then Some (Py.take_while Py.is_alnum (Py.drop 9 path))
  else match path with
       | EmptyString => None
       | String _ r => search_project r
       end.

(** [p.match(i)] for the pattern of the other branch, the starred class
    [a-zA-Z0-9] alone: it matches the longest run of the class at the
    start of [i], possibly empty, so it matches every [i]. *)
Definition match_alnum_star (i : string) : option string :=
  Some (Py.take_while Py.is_alnum i).

(** Truthiness of what [match] returns: a match object is always true. *)
Definition matched (m : option string) : bool :=
  match m with Some _ => true | None => false end.

Definition title_suffix : string := " - ShareLaTeX, Online LaTeX Editor</title>".

(** The lazy group of the title pattern followed by the suffix: the
    shortest non-empty run of characters other than a line feed that the
    suffix follows. *)
Fixpoint title_group (s : string) : option string :=
  match s with
  | EmptyString => None
  | String c r =>
      if Ascii.eqb c Py.LF then None
      else if literal_ci title_suffix r then Some (String c EmptyString)
      else option_map (String c) (title_group r)
  end.

(** The rest of the opening tag, up to a [>], followed by the group. *)
Fixpoint title_tag (s : string) : option string :=
  match s with
  | EmptyString => None
  | String c r =>
      match (if Ascii.eqb c ">" then title_group r else None) with
      | Some g => Some g
      | None => if Ascii.eqb c Py.LF then None else title_tag r
      end
  end.

(** First element of [findall(page)] for the title pattern, compiled with
    [re.I]: an opening [<title] tag, a lazy non-empty group, the suffix.
    [None] when the list is empty. *)
Fixpoint first_title (page : string) : option string :=
  match (if literal_ci "<title" page then title_tag (Py.drop 6 page) else None) with
  | Some g => Some g
  | None =>
      match page with
      | EmptyString => None
      | String _ r => first_title r
      end
  end.

End Re.

(** ** The script *)

Definition dq : string := String Repr.dquote EmptyString.
Definition esc (s : string) : string := String (ascii_of_nat 27) s.

(** [os.name] *)
Definition os_name : string := "posix".

(** [time.strftime('%Y/%m/%d %H:%M:%S')] of a broken-down time. *)
Definition strftime (t : struct_time) : string :=
  Py.str_of_Z (tm_year t) +:+ "/" +:+ Py.pad2 (tm_mon t) +:+ "/" +:+
  Py.pad2 (tm_mday t) +:+ " " +:+ Py.pad2 (tm_hour t) +:+ ":" +:+
  Py.pad2 (tm_min t) +:+ ":" +:+ Py.pad2 (tm_sec t).

(** [Logger.shell_mod] *)
Definition shell_mod : gmap string string :=
  list_to_map
    [ (EmptyString, EmptyString);
      ("PURPLE", esc "[95m");
      ("CYAN", esc "[96m");
      ("DARKCYAN", esc "[36m");
      ("BLUE", esc "[94m");
      ("GREEN", esc "[92m");
      ("YELLOW", esc "[93m");
      ("RED", esc "[91m");
      ("BOLD", esc "[1m");
      ("UNDERLINE", esc "[4m");
      ("RESET", esc "[0m") ].

(** [shell_mod[key]] *)
Definition shell_mod_get (key : string) : M string :=
  match shell_mod !! key with
  | Some v => ret v
  | None => raise KeyError
  end.

Section Script.

Variable E : Env.

Definition get_timestamp : M string :=
  fun w => (Ret (strftime (localtime E (trace w))), w).

(** [Logger.log] *)
Definition log (message : string) (is_bold : bool) (color : string)
    (log_time : bool) (indentation_level : nat) : M unit :=
  prefix <- (if log_time
             then ts <- get_timestamp ;;
                  ret ("[" +:+ ts +:+ "] " +:+ Py.repeat_str "..." indentation_level)
             else ret EmptyString) ;;
  fix_ <- (if String.eqb (Py.lower os_name) "posix"
           then bold <- (if is_bold then shell_mod_get "BOLD" else ret EmptyString) ;;
                col <- shell_mod_get (Py.upper color) ;;
                reset <- shell_mod_get "RESET" ;;
                ret (prefix +:+ bold +:+ col, reset)
           else ret (prefix, EmptyString)) ;;
  print (fst fix_ +:+ message +:+ snd fix_).

(** [Logger().log(message)] with the defaults of the other arguments. *)
Definition log_ (message : string) : M unit :=
  log message false EmptyString true 0.

(** [Logger.error] *)
Definition error (err : string) (log_time : bool) (indentation_level : nat)
  : M unit :=
  log err true "RED" log_time indentation_level.

(** [Logger.fatal_error] *)
Definition fatal_error {A} (err : string) : M A :=
  error err true 0 ;;; exit.

(** [subprocess.Popen(cmd, ...)] and [process.wait()]: the command is
    recorded and the environment answers. *)
Definition popen (cmd : string) : M (Z * output) :=
  fun w => (Ret (shell E (trace w) cmd), add_event (EvCmd cmd) w).

Definition run_cmd (cmd : string) (allow_fail : bool) : M output :=
  process <- popen cmd ;;
  let status := fst process in
  (if negb allow_fail && negb (status =? 0)%Z
   then fatal_error ("Error executing " +:+ dq +:+ cmd +:+ dq +:+ ": error code " +:+
                     Py.str_of_Z status +:+ ". Output: " +:+
                     Repr.bytes (raw_bytes (snd process)))
   else ret tt) ;;;
  ret (snd process).

(** [b.decode('utf-8')] *)
Definition decode (b : output) : M string :=
  match b with
  | Text text => ret text
  | Garbled _ _ => raise UnicodeDecodeError
  end.

Definition init_git_repository : M unit :=
  log_ "Initializing empty git repository..." ;;;
  run_cmd "git init" false ;;;
  ret tt.

Definition get_base_git_root : M string :=
  out <- run_cmd "git rev-parse --show-toplevel" false ;;
  text <- decode out ;;
  ret (Py.strip text).

Definition get_git_ignore : M string :=
  git_base <- get_base_git_root ;;
  ret (Py.path_join git_base ".gitignore").

(** The inner function of [ensure_gitignore_is_fine]; [lines] is the
    list read before the file was opened for appending. *)
Definition write_if_not_there (lines : list string) (f s : string) : M unit :=
  if negb (Py.in_list s lines) then f_write f (s +:+ Py.nl) else ret tt.

Definition ensure_gitignore_is_fine : M unit :=
  git_ignore <- get_git_ignore ;;
  lines <- try_except
             (text <- open_r git_ignore ;;
              ret (map Py.strip (Py.readlines text)))
             anything
             (ret []) ;;
  try_except
    (open_a git_ignore ;;;
     write_if_not_there lines git_ignore "sharelatex-git.py" ;;;
     write_if_not_there lines git_ignore "sharelatex-git" ;;;
     write_if_not_there lines git_ignore ".sharelatex-git")
    anything
    (log ("Can't edit .gitignore file [" +:+ git_ignore +:+ "].") true "YELLOW" true 0).

Definition is_git_repository : M bool :=
  out <- run_cmd "git status" true ;;
  status <- decode out ;;
  ret (negb (Py.contains "not a git repository" (Py.lower status))).

Definition ensure_git_repository_started : M unit :=
  b <- is_git_repository ;;
  if negb b then init_git_repository else ret tt.

Definition commit_all_changes (message : string) (title : option string)
  : M unit :=
  run_cmd "git add -A ." false ;;;
  git_ignore <- get_git_ignore ;;
  run_cmd ("git add -A " +:+ git_ignore) false ;;;
  cmd <- (if Py.truthy title
          then ts <- get_timestamp ;;
               ret ("git commit -m" +:+ dq +:+ "[sharelatex-git-integration " +:+
                    Py.fmt title +:+ " " +:+ ts +:+ "]")
          else ts <- get_timestamp ;;
               ret ("git commit -m" +:+ dq +:+ "[sharelatex-git-integration " +:+
                    ts +:+ "]")) ;;
  (if negb (Py.is_empty message)
   then run_cmd (cmd +:+ " " +:+ message +:+ dq) false
   else run_cmd (cmd +:+ dq) false) ;;;
  ret tt.

Definition files_changed : M bool :=
  bytes <- run_cmd "git status ." false ;;
  out <- decode bytes ;;
  ret (negb (Py.contains "nothing to commit, working directory clean" (Py.lower out))).

(** [urllib.request.urlretrieve(url, file)] *)
Definition urlretrieve (url file : string) : M unit :=
  fun w =>
    let w1 := add_event (EvRetrieve url file) w in
    match download E (trace w) url with
    | None => (Raise URLError, w1)
    | Some body =>
        match fs w !! file with
        | Some Dir => (Raise OSError, w1)
        | _ => (Ret tt, set_fs (<[file := File body]> (fs w)) w1)
        end
    end.

(** [with ZipFile(file, 'r') as f: f.extractall()] *)
Definition extractall (file : string) : M unit :=
  fun w =>
    let w1 := add_event (EvExtract file) w in
    match fs w !! file with
    | Some (File payload) =>
        let res := extract_archive (unzip E payload) (fs w) in
        (fst res, set_fs (snd res) w1)
    | _ => (Raise OSError, w1)
    end.

(** [os.listdir(dir)] *)
Definition os_listdir (dir : string) : M (list string) :=
  fun w =>
    let w1 := add_event (EvListdir dir) w in
    match fs w !! dir with
    | Some Dir => (Ret (children dir (fs w)), w1)
    | _ => (Raise OSError, w1)
    end.

(** [shutil.move(src, dst)] for a directory [dst]: the entry goes to
    [dst] joined with the base name of [src], unless that exists.  Paths
    are relative to the current directory, which is spelled without its
    leading dot. *)
Definition shutil_move (src dst : string) : M unit :=
  fun w =>
    let w1 := add_event (EvMove src dst) w in
    let real_dst :=
      if String.eqb dst "." then basename src
      else Py.path_join dst (basename src) in
    match fs w !! src, fs w !! real_dst with
    | None, _ => (Raise OSError, w1)
    | Some _, Some _ => (Raise ShutilError, w1)
    | Some _, None => (Ret tt, set_fs (rename_tree src real_dst (fs w)) w1)
    end.

(** [os.rmdir(dir)]: only an empty directory goes. *)
Definition os_rmdir (dir : string) : M unit :=
  fun w =>
    let w1 := add_event (EvRmdir dir) w in
    match fs w !! dir with
    | Some Dir =>
        if existsb (fun kv => Py.startswith (dir +:+ "/") (fst kv)) (map_to_list (fs w))
        then (Raise OSError, w1)
        else (Ret tt, set_fs (delete dir (fs w)) w1)
    | _ => (Raise OSError, w1)
    end.

(** [urllib.request.urlopen(url)] and [u.read().decode()] *)
Definition urlopen_read (url : string) : M string :=
  fun w =>
    let w1 := add_event (EvUrlopen url) w in
    match page E (trace w) url with
    | Some text => (Ret text, w1)
    | None => (Raise URLError, w1)
    end.

Definition fetch_updates (sharelatex_id : option string)
    (skip_LaTeX_folder : bool) : M (option string) :=
  let file_name := "sharelatex.zip" in
  let final_url := "https://www.sharelatex.com/project/" +:+
                   Py.fmt sharelatex_id +:+ "/download/zip" in
  log_ ("Downloading files from " +:+ final_url +:+ "...") ;;;
  try_except (urlretrieve final_url file_name) anything
    (fatal_error "Could not retrieve files. Perhaps a temporary network failure? Invalid id?") ;;;
  log_ "Decompressing files..." ;;;
  try_except (extractall file_name) only_BadZipFile
    (os_remove file_name ;;;
     fatal_error "Downloaded file is not a zip file. Have you made sure that your project is public?") ;;;
  os_remove file_name ;;;
  (if skip_LaTeX_folder
   then log_ "Moving files out of LaTeX folder..." ;;;
        names <- os_listdir "LaTeX" ;;
        for_each names (fun filename =>
          shutil_move (Py.path_join "LaTeX" filename) ".") ;;;
        os_rmdir "LaTeX"
   else ret tt) ;;;
  try_except
    (text <- urlopen_read ("https://www.sharelatex.com/project/" +:+
                           Py.fmt sharelatex_id) ;;
     match Re.first_title text with
     | Some title => ret (Some title)
     | None => raise IndexError
     end)
    anything
    (ret None).

Definition read_saved_sharelatex_document : M (option string) :=
  let doc := ".sharelatex-git" in
  try_except
    (text <- open_r doc ;;
     ret (Some (Py.strip (Py.readline text))))
    anything
    (ret None).

Definition write_saved_sharelatex_document (id : option string) : M unit :=
  let doc := ".sharelatex-git" in
  try_except
    (open_w doc ;;;
     f_write doc (Py.fmt id +:+ Py.nl))
    anything
    (log "Problem creating .sharelatex-git file" true "YELLOW" true 0).

(** One turn of the [while True] loop of [determine_id]; [again] is the
    next turn. *)
Definition ask_once (saved_id id : string) (again : M string) : M string :=
  print ("Conflicting ids. Given " +:+ saved_id +:+
         ", but previous records show " +:+ id +:+ ". Which to use?" +:+ Py.nl +:+
         "1. " +:+ saved_id +:+ " [old]" +:+ Py.nl +:+
         "2. " +:+ id +:+ " [new]") ;;;
  ans <- input "Id to use [blank = 2.] -> " ;;
  let ans := if Py.is_empty (Py.strip ans) then "2" else ans in
  if String.eqb (Py.strip ans) "1" || String.eqb (Py.strip ans) "2"
  then ret ans
  else again.

(** The loop itself.  Every turn reads one line of standard input, so it
    unfolds along the lines that are left; past the last one [input]
    raises [EOFError]. *)
Fixpoint ask (saved_id id : string) (lines : list string) : M string :=
  ask_once saved_id id
    (match lines with
     | [] => raise EOFError
     | _ :: rest => ask saved_id id rest
     end).

Definition determine_id (id : option string) : M (option string) :=
  saved_id <- read_saved_sharelatex_document ;;
  if Py.truthy id && Py.truthy saved_id then
    if negb (String.eqb (Py.fmt id) (Py.fmt saved_id)) then
      ans <- (fun w => ask (Py.fmt saved_id) (Py.fmt id) (stdin w) w) ;;
      ret (if String.eqb (Py.strip ans) "1" then saved_id else id)
    else ret id
  else if negb (Py.truthy saved_id) && negb (Py.truthy id) then
    fatal_error "No id supplied! See (-h) for usage."
  else if Py.truthy saved_id then ret saved_id
  else ret id.

Definition git_push : M unit :=
  log "Pushing is an experimental feature. If you experience lockdowns, hit CTRL+C. It means you probably have not configured password aching and/or passwordless pushes."
      true "YELLOW" true 0 ;;;
  run_cmd "git push origin master" false ;;;
  ret tt.

(** [getpass.getpass(prompt)] *)
Definition getpass (prompt : string) : M string :=
  fun w =>
    match password E (trace w) with
    | Some p => (Ret p, add_event (EvGetpass prompt) w)
    | None => (Raise EOFError, add_event (EvGetpass prompt) w)
    end.

(** The [requests] session of [sharelatex_push] (log in, fetch the token,
    upload): the environment decides what it prints and whether an
    exception escapes. *)
Definition requests_session (email pass : string) : M unit :=
  fun w =>
    let r := session E (trace w) email pass in
    (for_each (fst r) print ;;;
     if snd r then raise SessionError else ret tt)
      (add_event (EvSession email) w).

Definition sharelatex_push : M unit :=
  log "Pushing to sharelatex is an experimental feature. Use at your own risk."
      true "YELLOW" true 0 ;;;
  email <- input "sharelatex email: " ;;
  pass <- getpass "sharelatex password: " ;;
  requests_session email pass.

Definition go (id : option string) (message : string)
    (push sharelatex_push_flag dont_commit : bool) : M unit :=
  id <- determine_id id ;;
  ensure_git_repository_started ;;;
  ensure_gitignore_is_fine ;;;
  project_title <- fetch_updates id false ;;
  (if negb dont_commit then
     changed <- files_changed ;;
     if changed then
       (if negb (Py.is_empty message)
        then log_ ("Comitting changes. Message: " +:+ message +:+ ".")
        else log_ "Comitting changes. No message.") ;;;
       commit_all_changes message project_title ;;;
       (if push then git_push else ret tt)
     else log_ "No changes to commit."
   else ret tt) ;;;
  (if sharelatex_push_flag then sharelatex_push else ret tt) ;;;
  write_saved_sharelatex_document id ;;;
  log_ "All done!".

(** [urllib.parse.urlsplit(i).path] *)
Definition urlsplit (i : string) : M string :=
  match urlsplit_path E i with
  | Some p => ret p
  | None => raise ValueError
  end.

Definition extract_id_from_input (i : string) : M (option string) :=
  if Py.contains "http:" (Py.lower i) || Py.contains "https:" (Py.lower i) then
    try_except
      (path <- urlsplit i ;;
       match Re.search_project path with
       | Some g => ret (Some g)
       | None => raise AttributeError
       end)
      anything
      (fatal_error ("Unrecognized id supplied (" +:+ i +:+ ") [http/https]"))
  else
    if Re.matched (Re.match_alnum_star i) then ret (Some i)
    else log_ ("Unrecognized id supplied (" +:+ i +:+ ")") ;;; ret None.

(** What [OptionParser.parse_args] hands back: the option values and the
    positional arguments. *)
Record options := {
  opt_message : string;
  do_push : bool;
  do_sharelatex_push : bool;
  opt_dont_commit : bool
}.

(** [parse_input], from the parsed command line on; [parser.error] ends
    the process. *)
Definition parse_input (opts : options) (args : list string)
  : M (option string * options) :=
  match args with
  | [a] => id <- extract_id_from_input a ;; ret (id, opts)
  | [] => ret (None, opts)
  | _ => exit
  end.

(** The last line of the script: [go] applied to what [parse_input]
    returns. *)
Definition main (opts : options) (args : list string) : M unit :=
  r <- parse_input opts args ;;
  go (fst r) (opt_message (snd r)) (do_push (snd r))
     (do_sharelatex_push (snd r)) (opt_dont_commit (snd r)).

End Script.

(** ** Reference points: one environment and a few worlds

    The closed statements further down run the script in these. *)

Module Sample.

(** A plain rendering of [urllib.parse.urlsplit(url).path]: the scheme up to
    the first colon goes when it is made of scheme characters, then the
    network location after a double slash, then fragment and query. *)
Definition is_scheme_char (c : ascii) : bool :=
  Py.is_alnum c || Ascii.eqb c "+" || Ascii.eqb c "-" || Ascii.eqb c ".".

Fixpoint after_scheme (seen : nat) (s whole : string) : string :=
  match s with
  | EmptyString => whole
  | String c r =>
      if Ascii.eqb c ":" then (if seen =? 0 then whole else r)
      else if is_scheme_char c then after_scheme (S seen) r whole
      else whole
  end.

Fixpoint until (stop : ascii -> bool) (s : string) : string :=
  match s with
  | EmptyString => EmptyString
  | String c r => if stop c then EmptyString else String c (until stop r)
  end.

Fixpoint from (stop : ascii -> bool) (s : string) : string :=
  match s with
  | EmptyString => EmptyString
  | String c r => if stop c then s else from stop r
  end.

Definition ends_netloc (c : ascii) : bool :=
  Ascii.eqb c "/" || Ascii.eqb c "?" || Ascii.eqb c "#".

Definition split_path (url : string) : option string :=
  let rest := after_scheme 0 url url in
  let rest' :=
    if Py.startswith "//" rest then from ends_netloc (Py.drop 2 rest) else rest in
  let netloc :=
    if Py.startswith "//" rest then until ends_netloc (Py.drop 2 rest)
    else EmptyString in
  if xorb (Repr.has_char "[" netloc) (Repr.has_char "]" netloc) then None
  else Some (until (fun c => Ascii.eqb c "?") (until (fun c => Ascii.eqb c "#") rest')).

Definition noon : struct_time :=
  {| tm_year := 2024; tm_mon := 1; tm_mday := 2;
     tm_hour := 3; tm_min := 4; tm_sec := 5 |}%Z.

(** A repository at [/repo] with something to commit; every command
    succeeds. *)
Definition answer (cmd : string) : Z * output :=
  if String.eqb cmd "git rev-parse --show-toplevel" then (0%Z, Text ("/repo" +:+ Py.nl))
  else if String.eqb cmd "git status ." then (0%Z, Text "Changes not staged for commit:")
  else if String.eqb cmd "git status" then (0%Z, Text "On branch master")
  else (0%Z, Text EmptyString).

(** The project archive: one document inside the folder [LaTeX]. *)
Definition project : archive :=
  {| members := [("LaTeX", Dir); ("LaTeX/main.tex", File "\documentclass{article}")];
     ending := None |}.

Definition env : Env :=
  {| localtime := fun _ => noon;
     shell := fun _ cmd => answer cmd;
     download := fun _ _ => Some "PK";
     page := fun _ _ => Some "<html><title>Thesis - ShareLaTeX, Online LaTeX Editor</title></html>";
     unzip := fun _ => project;
     urlsplit_path := split_path;
     password := fun _ => None;
     session := fun _ _ _ => ([], false) |}.


(** The same, but the project is private: the download is a login page. *)
Definition env_private : Env :=
  {| localtime := fun _ => noon;
     shell := fun _ cmd => answer cmd;
     download := fun _ _ => Some "<html>Log in</html>";
     page := fun _ _ => None;
     unzip := fun _ => {| members := []; ending := Some BadZipFile |};
     urlsplit_path := split_path;
     password := fun _ => None;
     session := fun _ _ _ => ([], false) |}.

(** The same as [env], but a member of the archive does not decompress. *)
Definition env_corrupt : Env :=
  {| localtime := fun _ => noon;
     shell := fun _ cmd => answer cmd;
     download := fun _ _ => Some "PK";
     page := fun _ _ => Some "<html><title>Thesis - ShareLaTeX, Online LaTeX Editor</title></html>";
     unzip := fun _ => {| members := [("LaTeX", Dir)]; ending := Some ZlibError |};
     urlsplit_path := split_path;
     password := fun _ => None;
     session := fun _ _ _ => ([], false) |}.

(** The same as [env], but the working tree is clean. *)
Definition env_clean : Env :=
  {| localtime := fun _ => noon;
     shell := fun _ cmd =>
                if String.eqb cmd "git status ."
                then (0%Z, Text ("On branch master" +:+ Py.nl +:+
                                 "nothing to commit, working directory clean" +:+ Py.nl))
                else answer cmd;
     download := fun _ _ => Some "PK";
     page := fun _ _ => Some "<html><title>Thesis - ShareLaTeX, Online LaTeX Editor</title></html>";
     unzip := fun _ => project;
     urlsplit_path := split_path;
     password := fun _ => None;
     session := fun _ _ _ => ([], false) |}.

(** The same as [env], but the index of the repository is damaged: the
    status queries fail. *)
Definition env_status_fails : Env :=
  {| localtime := fun _ => noon;
     shell := fun _ cmd =>
                if String.eqb cmd "git status ." || String.eqb cmd "git status"
                then (128%Z, Text "fatal: index file corrupt")
                else answer cmd;
     download := fun _ _ => Some "PK";
     page := fun _ _ => Some "<html><title>Thesis - ShareLaTeX, Online LaTeX Editor</title></html>";
     unzip := fun _ => project;
     urlsplit_path := split_path;
     password := fun _ => None;
     session := fun _ _ _ => ([], false) |}.

(** The clean-state phrase after a byte that no UTF-8 text starts with. *)
Definition stray_byte : string :=
  String (ascii_of_nat 233) "nothing to commit, working directory clean".

(** The same as [env], but the scoped status query prints [stray_byte]. *)
Definition env_garbled : Env :=
  {| localtime := fun _ => noon;
     shell := fun _ cmd =>
                if String.eqb cmd "git status ."
                then (0%Z, Garbled stray_byte eq_refl)
                else answer cmd;
     download := fun _ _ => Some "PK";
     page := fun _ _ => Some "<html><title>Thesis - ShareLaTeX, Online LaTeX Editor</title></html>";
     unzip := fun _ => project;
     urlsplit_path := split_path;
     password := fun _ => None;
     session := fun _ _ _ => ([], false) |}.

(** An empty directory, nothing typed. *)
Definition fresh : world := {| fs := ∅; stdin := []; trace := [] |}.

(** A directory whose [.gitignore] ends without a line end. *)
Definition unterminated : world :=
  {| fs := {[ "/repo/.gitignore" := File "*.aux" ]}; stdin := []; trace := [] |}.

(** A directory synchronised before with project [abc123]. *)
Definition synced : world :=
  {| fs := {[ ".sharelatex-git" := File ("abc123" +:+ Py.nl) ]};
     stdin := []; trace := [] |}.

(** A directory in which a directory has the name of the state file. *)
Definition blocked : world :=
  {| fs := {[ ".sharelatex-git" := Dir ]}; stdin := []; trace := [] |}.

(** The content of a regular file, if it is one. *)
Definition text_of (path : string) (w : world) : option string :=
  match fs w !! path with
  | Some (File c) => Some c
  | _ => None
  end.

Definition commands (w : world) : list string :=
  omap (fun e => match e with EvCmd c => Some c | _ => None end) (trace w).

(** A first synchronisation of project [abc123], nothing else asked. *)
Definition run_plain : outcome unit * world :=
  go env (Some "abc123") EmptyString false false false fresh.

(** The same with a commit message and a push. *)
Definition run_pushed : outcome unit * world :=
  go env (Some "abc123") "Draft intro" true false false fresh.

(** A first synchronisation where the state file cannot be written. *)
Definition run_blocked : outcome unit * world :=
  go env (Some "abc123") EmptyString false false false blocked.


(** The exclusion file of [unterminated] after one update and after two. *)
Definition ignore_once : world :=
  snd (ensure_gitignore_is_fine env unterminated).

Definition ignore_twice : world :=
  snd (ensure_gitignore_is_fine env ignore_once).

End Sample.

(** * Vocabulary of the statements *)

(** ** Traces

    [spec ok Q m]: from every world, [m] only appends events accepted by
    [ok] to the trace, and a value it returns satisfies [Q]. *)

Definition extends (ok : event -> bool) (w w' : world) : Prop :=
  exists evs, trace w' = trace w ++ evs /\ forallb ok evs = true.

Definition spec {A} (ok : event -> bool) (Q : A -> Prop) (m : M A) : Prop :=
  forall w, extends ok w (snd (m w)) /\ (forall a, fst (m w) = Ret a -> Q a).

(** The postcondition that asks nothing. *)
Definition any {A : Type} : A -> Prop := fun _ => True.

(** Events that are neither a subprocess nor a change of the directory
    layout. *)
Definition quiet (e : event) : bool :=
  match e with
  | EvCmd _ | EvListdir _ | EvMove _ _ | EvRmdir _ => false
  | _ => true
  end.

(** Events other than a subprocess. *)
Definition not_a_command (e : event) : bool :=
  match e with EvCmd _ => false | _ => true end.

(** Events other than the commands of the commit step: staging, commit
    and the status query scoped to the current directory. *)
Definition outside_commit_step (e : event) : bool :=
  match e with
  | EvCmd c =>
      negb (Py.startswith "git add" c || Py.startswith "git commit" c ||
            String.eqb c "git status .")
  | _ => true
  end.

(** Events other than a commit command. *)
Definition no_commit_cmd (e : event) : bool :=
  match e with
  | EvCmd c => negb (Py.startswith "git commit" c)
  | _ => true
  end.

(** Events other than the three calls of the normalization step. *)
Definition keeps_layout (e : event) : bool :=
  match e with
  | EvListdir _ | EvMove _ _ | EvRmdir _ => false
  | _ => true
  end.

(** Nothing is left at or below the folder [LaTeX]. *)
Definition flattened (f : gmap string node) : bool :=
  forallb (fun kv => negb (at_or_below "LaTeX" (fst kv))) (map_to_list f).

(** ** Change detection *)

(** The phrase [files_changed] looks for. *)
Definition clean_phrase : string := "nothing to commit, working directory clean".

(** The output mentions the phrase, whatever the case of its letters. *)
Definition mentions_clean (out : string) : Prop :=
  exists pre mid post,
    out = pre +:+ mid +:+ post /\ Py.lower mid = Py.lower clean_phrase.

(** ** Identifiers *)

(** Looks like a URL: the first test of [extract_id_from_input]. *)
Definition url_shaped (i : string) : bool :=
  Py.contains "http:" (Py.lower i) || Py.contains "https:" (Py.lower i).

(** ** The commit message *)

(** The decimal digit [n], for [n] from 0 to 9. *)
Definition digit (n : Z) : ascii := ascii_of_nat (48 + Z.to_nat n).

(** Two digits, the tens first. *)
Definition digits2 (n : Z) : string :=
  String (digit (n / 10)) (String (digit (n mod 10)) EmptyString).

(** Four digits, the thousands first. *)
Definition digits4 (n : Z) : string :=
  String (digit (n / 1000)) (String (digit (n / 100 mod 10)) (digits2 (n mod 100))).

(** The timestamp as documented, YYYY/MM/DD HH:MM:SS: year, month and
    day between slashes, a space, hour, minute and second between colons. *)
Definition documented_timestamp (t : struct_time) : string :=
  digits4 (tm_year t) +:+ "/" +:+ digits2 (tm_mon t) +:+ "/" +:+
  digits2 (tm_mday t) +:+ " " +:+ digits2 (tm_hour t) +:+ ":" +:+
  digits2 (tm_min t) +:+ ":" +:+ digits2 (tm_sec t).

(** A broken-down time of the calendar, with a four-digit year. *)
Definition calendar (t : struct_time) : Prop :=
  (1000 <= tm_year t <= 9999 /\ 1 <= tm_mon t <= 12 /\ 1 <= tm_mday t <= 31 /\
   0 <= tm_hour t <= 23 /\ 0 <= tm_min t <= 59 /\ 0 <= tm_sec t <= 61)%Z.

(** The message as documented, for the four combinations of a title being
    known and a free text being supplied. *)
Definition documented_message (title : option string) (timestamp freetext : string)
  : string :=
  match Py.truthy title, Py.is_empty freetext with
  | true, false =>
      "[sharelatex-git-integration " +:+ Py.fmt title +:+ " " +:+ timestamp +:+ "] " +:+ freetext
  | true, true =>
      "[sharelatex-git-integration " +:+ Py.fmt title +:+ " " +:+ timestamp +:+ "]"
  | false, false =>
      "[sharelatex-git-integration " +:+ timestamp +:+ "] " +:+ freetext
  | false, true =>
      "[sharelatex-git-integration " +:+ timestamp +:+ "]"
  end.

(** ** Files of the tool *)

(** The downloaded artifact, [file_name] in [fetch_updates]. *)
Definition zip_name : string := "sharelatex.zip".

(** The sync state file, [doc] in the two functions that read and write it. *)
Definition state_file : string := ".sharelatex-git".

(** What [fetch_updates] still does once the artifact is removed: the move
    out of the nested folder when it is asked for, then the title lookup. *)
Definition after_removal (E : Env) (sharelatex_id : option string)
    (skip_LaTeX_folder : bool) : M (option string) :=
  (if skip_LaTeX_folder
   then log_ E "Moving files out of LaTeX folder..." ;;;
        names <- os_listdir "LaTeX" ;;
        for_each names (fun filename =>
          shutil_move (Py.path_join "LaTeX" filename) ".") ;;;
        os_rmdir "LaTeX"
   else ret tt) ;;;
  try_except
    (text <- urlopen_read E ("https://www.sharelatex.com/project/" +:+
                             Py.fmt sharelatex_id) ;;
     match Re.first_title text with
     | Some title => ret (Some title)
     | None => raise IndexError
     end)
    anything
    (ret None).


(** A logged line carries a message when the message stands in it between
    what the logger puts before (time, colour) and after (reset). *)
Definition carries (message line : string) : Prop :=
  exists before after, line = before +:+ message +:+ after.

(** ** The exclusion file *)

(** What one required entry adds to the file, given the lines read. *)
Definition missing (entry : string) (lines : list string) : string :=
  if Py.in_list entry lines then EmptyString else entry +:+ Py.nl.

(** The text of the exclusion file after the update, from its text before
    (the empty text for a file that was not there). *)
Definition updated (text : string) : string :=
  let lines := map Py.strip (Py.readlines text) in
  ((text +:+ missing "sharelatex-git.py" lines) +:+
   missing "sharelatex-git" lines) +:+ missing ".sharelatex-git" lines.

(** A text that is empty or ends with a line feed. *)
Definition terminated (text : string) : Prop :=
  text = EmptyString \/ exists body, text = body +:+ Py.nl.

(** * Properties *)

(** ** Strings *)

Section StringFacts.

Lemma append_cons (c : ascii) (a b : string) :
  String c a +:+ b = String c (a +:+ b).
Proof. reflexivity. Qed.

Lemma append_nil_r (s : string) : s +:+ EmptyString = s.
Proof.
  induction s as [|c s IH]; [reflexivity |]. now rewrite append_cons, IH.
Qed.

Lemma append_assoc (a b c : string) : (a +:+ b) +:+ c = a +:+ (b +:+ c).
Proof.
  induction a as [|x a IH]; [reflexivity |]. now rewrite !append_cons, IH.
Qed.

Lemma map_chars_app (f : ascii -> ascii) (a b : string) :
  Py.map_chars f (a +:+ b) = Py.map_chars f a +:+ Py.map_chars f b.
Proof.
  induction a as [|x a IH]; [reflexivity |].
  rewrite append_cons. simpl. now rewrite IH.
Qed.

(** A text whose image under a character map is a concatenation splits
    the same way. *)
Lemma map_chars_split (f : ascii -> ascii) (a b s : string) :
  Py.map_chars f s = a +:+ b ->
  exists s1 s2, s = s1 +:+ s2 /\ Py.map_chars f s1 = a /\ Py.map_chars f s2 = b.
Proof.
  revert s. induction a as [|x a IH]; intros s H.
  - exists EmptyString, s. auto.
  - destruct s as [|c s]; [discriminate |].
    rewrite append_cons in H. simpl in H.
    injection H as Hc Hs. destruct (IH _ Hs) as (s1 & s2 & -> & H1 & H2).
    exists (String c s1), s2. simpl. now rewrite Hc, H1.
Qed.

Lemma startswith_app (p r : string) : Py.startswith p (p +:+ r) = true.
Proof.
  induction p as [|c p IH]; [reflexivity |].
  rewrite append_cons. simpl. now rewrite Ascii.eqb_refl, IH.
Qed.

Lemma startswith_inv (p s : string) :
  Py.startswith p s = true -> exists r, s = p +:+ r.
Proof.
  revert s. induction p as [|c p IH]; intros s H.
  - now exists s.
  - destruct s as [|d s]; simpl in H; [discriminate |].
    apply andb_prop in H as [Hc Hp]. apply Ascii.eqb_eq in Hc as ->.
    destruct (IH _ Hp) as [r ->]. now exists r.
Qed.

(** [needle in hay] holds exactly when [hay] splits around [needle]. *)
Lemma contains_iff (needle hay : string) :
  Py.contains needle hay = true <->
  exists pre post, hay = pre +:+ needle +:+ post.
Proof.
  split.
  - induction hay as [|c hay IH]; simpl; intros H.
    + rewrite orb_false_r in H. apply startswith_inv in H as [r ->].
      now exists EmptyString, r.
    + apply orb_prop in H as [H | H].
      * apply startswith_inv in H as [r ->]. now exists EmptyString, r.
      * destruct (IH H) as (pre & post & ->). now exists (String c pre), post.
  - intros (pre & post & ->). induction pre as [|c pre IH].
    + change (EmptyString +:+ needle +:+ post) with (needle +:+ post).
      destruct (needle +:+ post) eqn:Hn; simpl.
      * rewrite <- Hn, startswith_app. reflexivity.
      * rewrite <- Hn, startswith_app. reflexivity.
    + rewrite append_cons. simpl. rewrite IH. apply orb_true_r.
Qed.

End StringFacts.

(** ** What a computation adds to the trace *)

Lemma extends_refl ok w : extends ok w w.
Proof. exists []. split; [now rewrite app_nil_r | reflexivity]. Qed.

Lemma extends_trans ok w1 w2 w3 :
  extends ok w1 w2 -> extends ok w2 w3 -> extends ok w1 w3.
Proof.
  intros (e1 & H1 & F1) (e2 & H2 & F2). exists (e1 ++ e2). split.
  - now rewrite H2, H1, app_assoc.
  - rewrite forallb_app, F1, F2. reflexivity.
Qed.

Lemma extends_same_trace ok w w' : trace w' = trace w -> extends ok w w'.
Proof. intros H. exists []. split; [now rewrite app_nil_r | reflexivity]. Qed.

Lemma extends_event ok e w w' :
  ok e = true -> trace w' = trace w ++ [e] -> extends ok w w'.
Proof. intros Hok H. exists [e]. split; [exact H | simpl; now rewrite Hok]. Qed.

Section SpecRules.

Context {A B : Type}.
Variable ok : event -> bool.

Lemma spec_ret (Q : A -> Prop) a : Q a -> spec ok Q (ret a).
Proof.
  intros H w. split; [apply extends_refl |]. simpl. now intros ? [= <-].
Qed.

Lemma spec_raise (Q : A -> Prop) e : spec ok Q (raise e).
Proof. intros w. split; [apply extends_refl | discriminate]. Qed.

Lemma spec_bind (P : A -> Prop) (Q : B -> Prop) (m : M A) (k : A -> M B) :
  spec ok P m -> (forall a, P a -> spec ok Q (k a)) -> spec ok Q (bind m k).
Proof.
  intros Hm Hk w. unfold bind. specialize (Hm w).
  destruct (m w) as [[a | e] w1]; simpl in *.
  - destruct Hm as [Hext HP]. specialize (Hk a (HP a eq_refl) w1).
    destruct Hk as [Hext' HQ]. split; [eapply extends_trans; eauto | exact HQ].
  - split; [apply Hm | discriminate].
Qed.

Lemma spec_try (Q : A -> Prop) (m h : M A) caught :
  spec ok Q m -> spec ok Q h -> spec ok Q (try_except m caught h).
Proof.
  intros Hm Hh w. unfold try_except. specialize (Hm w).
  destruct (m w) as [[a | e] w1]; simpl in *; [exact Hm |].
  destruct (caught e); simpl.
  - destruct (Hh w1) as [Hext HQ]. split; [| exact HQ].
    eapply extends_trans; [apply Hm | exact Hext].
  - split; [apply Hm | discriminate].
Qed.

Lemma spec_weaken (P Q : A -> Prop) (m : M A) :
  (forall a, P a -> Q a) -> spec ok P m -> spec ok Q m.
Proof.
  intros HPQ Hm w. destruct (Hm w) as [Hext HP]. split; [exact Hext |].
  intros a Ha. apply HPQ, HP, Ha.
Qed.

End SpecRules.

(** A computation that leaves the trace alone, or appends one accepted
    event, meets [spec] with the trivial postcondition. *)
Ltac leaf :=
  let w := fresh "w" in
  intros w; split; [| intros; exact I];
  repeat match goal with
         | |- context [match ?x with _ => _ end] => destruct x
         end;
  simpl;
  first [ apply extends_refl
        | apply extends_same_trace; reflexivity
        | eapply extends_event; [eassumption | reflexivity] ].

(** One step through the structure of a computation. *)
Ltac spec_step :=
  match goal with
  | |- spec _ _ (bind _ _) => apply (spec_bind _ any); [| intros ? _]
  | |- spec _ _ (ret _) => apply spec_ret; exact I
  | |- spec _ _ (raise _) => apply spec_raise
  | |- spec _ _ exit => apply spec_raise
  | |- spec _ _ (try_except _ _ _) => apply spec_try
  | |- spec _ _ (if ?b then _ else _) => destruct b
  | |- spec _ _ (match ?x with _ => _ end) => destruct x
  end.

Section TraceFacts.

Variable E : Env.
Variable ok : event -> bool.
Hypothesis ok_quiet : forall e, quiet e = true -> ok e = true.

Lemma spec_emit e : ok e = true -> spec ok any (emit e).
Proof. intros H. unfold emit. leaf. Qed.

Lemma spec_print s : spec ok any (print s).
Proof. apply spec_emit, ok_quiet. reflexivity. Qed.

Lemma spec_get_timestamp : spec ok any (get_timestamp E).
Proof. unfold get_timestamp. leaf. Qed.

Lemma spec_open_r path : spec ok any (open_r path).
Proof. unfold open_r. leaf. Qed.

Lemma spec_open_a path : spec ok any (open_a path).
Proof. unfold open_a. leaf. Qed.

Lemma spec_open_w path : spec ok any (open_w path).
Proof. unfold open_w. leaf. Qed.

Lemma spec_f_write path s : spec ok any (f_write path s).
Proof. unfold f_write. leaf. Qed.

Lemma spec_input prompt : spec ok any (input prompt).
Proof.
  pose proof (ok_quiet (EvInput prompt) eq_refl). unfold input. leaf.
Qed.

Lemma spec_os_remove path : spec ok any (os_remove path).
Proof.
  pose proof (ok_quiet (EvRemove path) eq_refl). unfold os_remove. leaf.
Qed.

Lemma spec_popen cmd : ok (EvCmd cmd) = true -> spec ok any (popen E cmd).
Proof. intros H. unfold popen. leaf. Qed.

Lemma spec_urlretrieve url file : spec ok any (urlretrieve E url file).
Proof.
  pose proof (ok_quiet (EvRetrieve url file) eq_refl). unfold urlretrieve. leaf.
Qed.

Lemma spec_extractall file : spec ok any (extractall E file).
Proof.
  pose proof (ok_quiet (EvExtract file) eq_refl). unfold extractall. leaf.
Qed.

Lemma spec_urlopen_read url : spec ok any (urlopen_read E url).
Proof.
  pose proof (ok_quiet (EvUrlopen url) eq_refl). unfold urlopen_read. leaf.
Qed.

Lemma spec_getpass prompt : spec ok any (getpass E prompt).
Proof.
  pose proof (ok_quiet (EvGetpass prompt) eq_refl). unfold getpass. leaf.
Qed.

Lemma spec_shell_mod_get key : spec ok any (shell_mod_get key).
Proof. unfold shell_mod_get. repeat spec_step. Qed.

Lemma spec_log message is_bold color log_time level :
  spec ok any (log E message is_bold color log_time level).
Proof.
  unfold log.
  repeat first [ spec_step | apply spec_get_timestamp | apply spec_shell_mod_get
               | apply spec_print ].
Qed.

Lemma spec_fatal_error {A} err : spec ok (@any A) (fatal_error E err).
Proof.
  unfold fatal_error, error. repeat first [ spec_step | apply spec_log ].
Qed.

Lemma spec_run_cmd cmd allow_fail :
  ok (EvCmd cmd) = true -> spec ok any (run_cmd E cmd allow_fail).
Proof.
  intros H. unfold run_cmd.
  repeat first [ spec_step | apply spec_popen; exact H | apply spec_fatal_error ].
Qed.

Lemma spec_decode b : spec ok any (decode b).
Proof. unfold decode. destruct b; spec_step. Qed.

Lemma spec_for_each {A} (l : list A) (body : A -> M unit) :
  (forall x, spec ok any (body x)) -> spec ok any (for_each l body).
Proof.
  intros H. induction l as [|x l IH]; simpl; repeat first [ spec_step | apply H | exact IH ].
Qed.

Lemma spec_on_stdin {A} (Q : A -> Prop) (f : list string -> M A) :
  (forall l, spec ok Q (f l)) -> spec ok Q (fun w => f (stdin w) w).
Proof. intros H w. apply H. Qed.

Lemma spec_ask saved_id id lines : spec ok any (ask saved_id id lines).
Proof.
  induction lines as [|l lines IH]; simpl; unfold ask_once;
    repeat first [ spec_step | apply spec_print | apply spec_input | exact IH ].
Qed.

Lemma spec_read_saved : spec ok any read_saved_sharelatex_document.
Proof.
  unfold read_saved_sharelatex_document.
  repeat first [ spec_step | apply spec_open_r ].
Qed.

Lemma spec_write_saved id : spec ok any (write_saved_sharelatex_document E id).
Proof.
  unfold write_saved_sharelatex_document.
  repeat first [ spec_step | apply spec_open_w | apply spec_f_write | apply spec_log ].
Qed.

Lemma spec_determine_id id : spec ok any (determine_id E id).
Proof.
  unfold determine_id.
  repeat first [ spec_step | apply spec_read_saved | apply spec_fatal_error
               | apply spec_on_stdin; intros; apply spec_ask ].
Qed.

Lemma spec_requests_session email pass : spec ok any (requests_session E email pass).
Proof.
  intros w. unfold requests_session.
  assert (Hrest : spec ok any
            (for_each (fst (session E (trace w) email pass)) print ;;;
             if snd (session E (trace w) email pass)
             then raise SessionError else ret tt)).
  { repeat first [ spec_step | apply spec_for_each; intros; apply spec_print ]. }
  destruct (Hrest (add_event (EvSession email) w)) as [Hext _].
  split; [| intros; exact I].
  eapply extends_trans; [| exact Hext].
  apply (extends_event ok (EvSession email)); [apply ok_quiet |]; reflexivity.
Qed.

Lemma spec_sharelatex_push : spec ok any (sharelatex_push E).
Proof.
  unfold sharelatex_push.
  repeat first [ spec_step | apply spec_log | apply spec_input | apply spec_getpass
               | apply spec_requests_session ].
Qed.

Lemma spec_fetch_updates_in_place id : spec ok any (fetch_updates E id false).
Proof.
  unfold fetch_updates.
  repeat first [ spec_step | apply spec_log | apply spec_urlretrieve
               | apply spec_fatal_error | apply spec_extractall
               | apply spec_os_remove | apply spec_urlopen_read ].
Qed.

Section Commands.

Hypothesis ok_status : ok (EvCmd "git status") = true.
Hypothesis ok_init : ok (EvCmd "git init") = true.
Hypothesis ok_toplevel : ok (EvCmd "git rev-parse --show-toplevel") = true.

Lemma spec_ensure_git_repository_started :
  spec ok any (ensure_git_repository_started E).
Proof.
  unfold ensure_git_repository_started, is_git_repository, init_git_repository.
  repeat first [ spec_step | apply spec_log | apply spec_decode
               | apply spec_run_cmd; assumption ].
Qed.

Lemma spec_get_git_ignore : spec ok any (get_git_ignore E).
Proof.
  unfold get_git_ignore, get_base_git_root.
  repeat first [ spec_step | apply spec_decode | apply spec_run_cmd; assumption ].
Qed.

Lemma spec_ensure_gitignore_is_fine : spec ok any (ensure_gitignore_is_fine E).
Proof.
  unfold ensure_gitignore_is_fine, write_if_not_there.
  repeat first [ spec_step | apply spec_get_git_ignore | apply spec_open_r
               | apply spec_open_a | apply spec_f_write | apply spec_log ].
Qed.

Lemma spec_files_changed :
  ok (EvCmd "git status .") = true -> spec ok any (files_changed E).
Proof.
  intros H. unfold files_changed.
  repeat first [ spec_step | apply spec_decode | apply spec_run_cmd; assumption ].
Qed.

Lemma spec_git_push :
  ok (EvCmd "git push origin master") = true -> spec ok any (git_push E).
Proof.
  intros H. unfold git_push.
  repeat first [ spec_step | apply spec_log | apply spec_run_cmd; assumption ].
Qed.

Lemma spec_commit_all_changes message title :
  (forall c, ok (EvCmd c) = true) -> spec ok any (commit_all_changes E message title).
Proof.
  intros H. unfold commit_all_changes.
  repeat first [ spec_step | apply spec_get_git_ignore | apply spec_get_timestamp
               | apply spec_run_cmd; apply H ].
Qed.

(** The whole run, given what the commit step in its middle does. *)
Lemma spec_go (id : option string) (message : string)
    (push flag dont_commit : bool) :
  (forall project_title,
     spec ok (@any unit)
       (if negb dont_commit then
          changed <- files_changed E ;;
          if changed then
            (if negb (Py.is_empty message)
             then log_ E ("Comitting changes. Message: " +:+ message +:+ ".")
             else log_ E "Comitting changes. No message.") ;;;
            commit_all_changes E message project_title ;;;
            (if push then git_push E else ret tt)
          else log_ E "No changes to commit."
        else ret tt)) ->
  spec ok any (go E id message push flag dont_commit).
Proof.
  intros Hmid. unfold go.
  apply (spec_bind _ any); [apply spec_determine_id | intros id' _].
  apply (spec_bind _ any); [apply spec_ensure_git_repository_started | intros _ _].
  apply (spec_bind _ any); [apply spec_ensure_gitignore_is_fine | intros _ _].
  apply (spec_bind _ any); [apply spec_fetch_updates_in_place | intros title _].
  apply (spec_bind _ any); [apply Hmid | intros _ _].
  unfold log_.
  repeat first [ spec_step | apply spec_sharelatex_push | apply spec_write_saved
               | apply spec_log ].
Qed.

End Commands.

End TraceFacts.

(** ** The modes of the main flow *)

Lemma quiet_outside_commit_step e : quiet e = true -> outside_commit_step e = true.
Proof. destruct e; simpl; congruence. Qed.

(** C9. In no-commit mode a run of [go] issues no staging command, no
    commit command and no scoped status query, whatever the environment
    answers and whatever the directory holds: every event the run appends to
    the trace lies outside the commit step. *)
Theorem no_commit_mode_skips_commit_step
    (E : Env) (id : option string) (message : string) (push flag : bool) (w : world) :
  exists evs,
    trace (snd (go E id message push flag true w)) = trace w ++ evs /\
    forallb outside_commit_step evs = true.
Proof.
  apply (spec_go E outside_commit_step quiet_outside_commit_step); try reflexivity.
  intros title. simpl. apply spec_ret. exact I.
Qed.

(** In the default mode the same flow does go through the commit step. *)
Lemma commit_mode_runs_commit_step :
  Sample.commands (snd Sample.run_pushed)
    = [ "git status"; "git rev-parse --show-toplevel"; "git status .";
        "git add -A ."; "git rev-parse --show-toplevel";
        "git add -A /repo/.gitignore";
        "git commit -m" +:+ dq +:+
          "[sharelatex-git-integration Thesis 2024/01/02 03:04:05] Draft intro" +:+ dq;
        "git push origin master" ] /\
  forallb outside_commit_step (trace (snd Sample.run_pushed)) = false /\
  forallb no_commit_cmd (trace (snd Sample.run_pushed)) = false.
Proof. vm_compute. repeat split. Qed.

Lemma quiet_keeps_layout e : quiet e = true -> keeps_layout e = true.
Proof. destruct e; simpl; congruence. Qed.

(** C1, as the code has it.  The main flow calls the fetch with the
    normalization switched off: no run of [go] lists the folder [LaTeX],
    moves an entry or removes a directory, so what the archive nests below
    that folder stays there. *)
Theorem go_fetches_without_normalization
    (E : Env) (id : option string) (message : string)
    (push flag dont_commit : bool) (w : world) :
  exists evs,
    trace (snd (go E id message push flag dont_commit w)) = trace w ++ evs /\
    forallb keeps_layout evs = true.
Proof.
  apply (spec_go E keeps_layout quiet_keeps_layout); try reflexivity.
  intros title. unfold log_.
  repeat first
    [ spec_step
    | apply spec_log; apply quiet_keeps_layout
    | apply spec_files_changed; [apply quiet_keeps_layout | reflexivity]
    | apply spec_commit_all_changes;
        [apply quiet_keeps_layout | reflexivity | reflexivity]
    | apply spec_git_push; [apply quiet_keeps_layout | reflexivity] ].
Qed.

(** C1, as the claim words it, fails: after a complete run on an archive
    that nests [main.tex] below [LaTeX], the document is still below
    [LaTeX] and the folder is still there. *)
Lemma go_leaves_nested_folder :
  fst Sample.run_plain = Ret tt /\
  fs (snd Sample.run_plain) !! "LaTeX/main.tex" = Some (File "\documentclass{article}") /\
  fs (snd Sample.run_plain) !! "LaTeX" = Some Dir /\
  fs (snd Sample.run_plain) !! "main.tex" = None /\
  flattened (fs (snd Sample.run_plain)) = false.
Proof. vm_compute. repeat split. Qed.

(** The switch itself works: the same fetch with the normalization on
    moves the document up and removes the folder. *)
Lemma fetch_with_normalization_flattens :
  fs (snd (fetch_updates Sample.env (Some "abc123") true Sample.fresh)) !! "main.tex"
    = Some (File "\documentclass{article}") /\
  flattened (fs (snd (fetch_updates Sample.env (Some "abc123") true Sample.fresh)))
    = true.
Proof. vm_compute. repeat split. Qed.

(** ** Change detection *)

Lemma quiet_no_commit_cmd e : quiet e = true -> no_commit_cmd e = true.
Proof. destruct e; simpl; congruence. Qed.

Lemma contains_lower_iff (out : string) :
  Py.contains clean_phrase (Py.lower out) = true <-> mentions_clean out.
Proof.
  rewrite contains_iff. unfold mentions_clean, Py.lower. split.
  - intros (pre & post & H).
    apply map_chars_split in H as (s1 & s23 & -> & H1 & H23).
    apply map_chars_split in H23 as (s2 & s3 & -> & H2 & H3).
    exists s1, s2, s3. split; [reflexivity |]. rewrite H2. reflexivity.
  - intros (pre & mid & post & -> & H).
    exists (Py.map_chars Py.lower_char pre), (Py.map_chars Py.lower_char post).
    rewrite !map_chars_app, H. reflexivity.
Qed.

Lemma files_changed_value (E : Env) (w : world) (text : string) :
  shell E (trace w) "git status ." = (0%Z, Text text) ->
  fst (files_changed E w) = Ret (negb (Py.contains clean_phrase (Py.lower text))).
Proof.
  intros H. unfold files_changed, run_cmd, popen, bind. rewrite H. reflexivity.
Qed.

(** A query that exits with another status is no report: [run_cmd] ends
    the process. *)
Lemma files_changed_fatal (E : Env) (w : world) (status : Z) (out : output) :
  shell E (trace w) "git status ." = (status, out) ->
  status <> 0%Z ->
  fst (files_changed E w) = Raise SystemExit.
Proof.
  intros H Hst. unfold files_changed, run_cmd, popen. unfold bind at 1 2 3.
  rewrite H. cbn [fst snd negb andb].
  apply Z.eqb_neq in Hst. rewrite Hst. cbn [negb].
  unfold fatal_error, error, bind.
  destruct (log E _ true "RED" true 0 _) as [[[] | e] w1] eqn:Hlog.
  - reflexivity.
  - exfalso. revert Hlog. match goal with |- log E ?m _ _ _ _ ?w0 = _ -> _ =>
      assert (Hl : exists line, log E m true "RED" true 0 w0
                                = (Ret tt, add_event (EvPrint line) w0))
        by (eexists; reflexivity) end.
    destruct Hl as [line ->]. discriminate.
Qed.

(** Output that is no UTF-8 is no report either: the decoding error is
    not caught. *)
Lemma files_changed_undecodable (E : Env) (w : world) (raw : string) H :
  shell E (trace w) "git status ." = (0%Z, Garbled raw H) ->
  fst (files_changed E w) = Raise UnicodeDecodeError.
Proof.
  intros Hsh. unfold files_changed, run_cmd, popen, bind. rewrite Hsh. reflexivity.
Qed.

Lemma files_changed_clean (E : Env) :
  (forall h, fst (shell E h "git status .") <> 0%Z \/
             forall text, snd (shell E h "git status .") = Text text ->
                          mentions_clean text) ->
  spec no_commit_cmd (fun b => b = false) (files_changed E).
Proof.
  intros Hclean w. split.
  - apply (spec_files_changed E no_commit_cmd quiet_no_commit_cmd eq_refl).
  - intros a Ha. specialize (Hclean (trace w)).
    destruct (shell E (trace w) "git status .") as [status out] eqn:Hsh.
    cbn [fst snd] in Hclean.
    destruct (Z.eq_dec status 0) as [-> | Hst].
    + destruct Hclean as [Hne | Hclean]; [now destruct Hne |].
      destruct out as [text | raw Hraw].
      * rewrite (files_changed_value E w text Hsh) in Ha. injection Ha as <-.
        specialize (Hclean text eq_refl). apply contains_lower_iff in Hclean.
        now rewrite Hclean.
      * rewrite (files_changed_undecodable E w raw Hraw Hsh) in Ha. discriminate.
    + rewrite (files_changed_fatal E w status out Hsh Hst) in Ha. discriminate.
Qed.

(** C7, as the code has it.  For a scoped status query that exits with
    status 0 and prints text, change detection follows the text: where it
    mentions the clean-state phrase, in any case of letters, the report is
    no change, and any other text is reported as a change.  A query that
    exits with another status is not reported at all: the process ends with
    the fatal error.  Output that is no UTF-8 is not reported either: the
    decoding error goes up.  And where every query either exits with
    another status or prints no text without the phrase, a run of [go]
    issues no commit command. *)
Theorem clean_status_means_no_commit (E : Env) :
  (forall w text,
     shell E (trace w) "git status ." = (0%Z, Text text) ->
     (mentions_clean text -> fst (files_changed E w) = Ret false) /\
     (~ mentions_clean text -> fst (files_changed E w) = Ret true)) /\
  (forall w status out,
     shell E (trace w) "git status ." = (status, out) ->
     status <> 0%Z ->
     fst (files_changed E w) = Raise SystemExit) /\
  (forall w raw undecodable,
     shell E (trace w) "git status ." = (0%Z, Garbled raw undecodable) ->
     fst (files_changed E w) = Raise UnicodeDecodeError) /\
  ((forall h, fst (shell E h "git status .") <> 0%Z \/
              forall text, snd (shell E h "git status .") = Text text ->
                           mentions_clean text) ->
   forall id message push flag dont_commit w,
   exists evs,
     trace (snd (go E id message push flag dont_commit w)) = trace w ++ evs /\
     forallb no_commit_cmd evs = true).
Proof.
  split; [| split; [| split]].
  - intros w text H. rewrite (files_changed_value E w text H).
    rewrite <- contains_lower_iff. split.
    + intros ->. reflexivity.
    + intros Hn. destruct (Py.contains _ _); [now destruct Hn | reflexivity].
  - apply files_changed_fatal.
  - apply files_changed_undecodable.
  - intros Hclean id message push flag dont_commit w.
    apply (spec_go E no_commit_cmd quiet_no_commit_cmd); try reflexivity.
    intros title. destruct dont_commit; simpl; [apply spec_ret; exact I |].
    apply (spec_bind _ (fun b => b = false)); [apply files_changed_clean, Hclean |].
    intros changed ->. apply spec_log, quiet_no_commit_cmd.
Qed.

Lemma clean_status_means_no_commit_witness :
  fst (files_changed Sample.env_clean Sample.fresh) = Ret false /\
  fst (files_changed Sample.env_status_fails Sample.fresh) = Raise SystemExit /\
  fst (files_changed Sample.env_garbled Sample.fresh) = Raise UnicodeDecodeError /\
  exists evs,
    trace (snd (go Sample.env_clean (Some "abc123") "Draft intro" true false false
                   Sample.fresh)) = trace Sample.fresh ++ evs /\
    forallb no_commit_cmd evs = true.
Proof.
  assert (Hm : mentions_clean
                 ("On branch master" +:+ Py.nl +:+
                  "nothing to commit, working directory clean" +:+ Py.nl)).
  { exists ("On branch master" +:+ Py.nl),
           "nothing to commit, working directory clean", Py.nl.
    split; reflexivity. }
  destruct (clean_status_means_no_commit Sample.env_clean) as (Hdetect & _ & _ & Hflow).
  destruct (clean_status_means_no_commit Sample.env_status_fails) as (_ & Hfatal & _).
  destruct (clean_status_means_no_commit Sample.env_garbled) as (_ & _ & Hdecode & _).
  split; [| split; [| split]].
  - apply (Hdetect Sample.fresh _ eq_refl). exact Hm.
  - apply (Hfatal Sample.fresh 128%Z (Text "fatal: index file corrupt") eq_refl).
    discriminate.
  - apply (Hdecode Sample.fresh Sample.stray_byte eq_refl eq_refl).
  - apply Hflow. intros h. right. intros text [= <-]. exact Hm.
Defined.

(** C7, as the claim words it, fails: with a damaged index the status
    query exits with status 128 and prints something other than the phrase,
    yet that is not reported as a change; the process ends instead, in the
    function and in a whole run. *)
Lemma failed_status_query_is_not_a_report :
  shell Sample.env_status_fails (trace Sample.fresh) "git status ."
    = (128%Z, Text "fatal: index file corrupt") /\
  ~ mentions_clean "fatal: index file corrupt" /\
  fst (files_changed Sample.env_status_fails Sample.fresh) = Raise SystemExit /\
  fst (files_changed Sample.env_status_fails Sample.fresh) <> Ret true /\
  (let r := go Sample.env_status_fails (Some "abc123") "Draft intro" false false false
              Sample.fresh in
   fst r = Raise SystemExit /\
   last (Sample.commands (snd r)) = Some "git status .").
Proof.
  split; [reflexivity | split; [| split; [| split]]].
  - rewrite <- contains_lower_iff. vm_compute. discriminate.
  - vm_compute. reflexivity.
  - vm_compute. discriminate.
  - vm_compute. split; reflexivity.
Qed.

(** ** Identifier extraction *)

Lemma take_while_all (f : ascii -> bool) (s : string) :
  Py.all_chars f (Py.take_while f s) = true.
Proof.
  induction s as [|c s IH]; simpl; [reflexivity |].
  destruct (f c) eqn:Hc; simpl; [now rewrite Hc | reflexivity].
Qed.

Lemma search_project_alnum (path g : string) :
  Re.search_project path = Some g -> Py.all_chars Py.is_alnum g = true.
Proof.
  induction path as [|c path IH].
  - discriminate.
  - cbn [Re.search_project]. destruct (Re.literal_ci _ _); [| exact IH].
    intros [= <-]. apply take_while_all.
Qed.

Lemma fatal_error_exits {A} (E : Env) (err : string) (w : world) :
  exists line,
    @fatal_error E A err w = (Raise SystemExit, add_event (EvPrint line) w).
Proof. eexists. reflexivity. Qed.

(** What the URL branch can do: leave the process, or return a run of the
    class, which may be empty. *)
Lemma url_branch_outcomes (E : Env) (i : string) (w : world) :
  url_shaped i = true ->
  fst (extract_id_from_input E i w) = Raise SystemExit \/
  exists g, extract_id_from_input E i w = (Ret (Some g), w) /\
            Py.all_chars Py.is_alnum g = true.
Proof.
  intros Hurl. unfold extract_id_from_input. unfold url_shaped in Hurl.
  rewrite Hurl. unfold try_except, bind, urlsplit.
  destruct (fatal_error_exits (A := option string) E
              ("Unrecognized id supplied (" +:+ i +:+ ") [http/https]") w)
    as [line Hf].
  destruct (urlsplit_path E i) as [path |]; unfold ret, raise.
  - destruct (Re.search_project path) as [g |] eqn:Hg.
    + right. exists g. split; [reflexivity |]. eapply search_project_alnum, Hg.
    + left. rewrite Hf. reflexivity.
  - left. rewrite Hf. reflexivity.
Qed.

(** C3 at its failing input.  A project URL that stops after [/project/] is
    URL-shaped, and the extraction returns the empty string for it: the
    starred class of the pattern matches nothing, the search succeeds, and
    the fatal branch is not taken. *)
Theorem url_without_identifier_yields_empty (w : world) :
  url_shaped "https://www.sharelatex.com/project/" = true /\
  extract_id_from_input Sample.env "https://www.sharelatex.com/project/" w
    = (Ret (Some EmptyString), w).
Proof. split; reflexivity. Qed.

(** The URL of the documentation does yield its identifier. *)
Lemma url_with_identifier (w : world) :
  extract_id_from_input Sample.env
    "https://host.example/project/56147712cc7f5d0adeadbeef/download/zip" w
    = (Ret (Some "56147712cc7f5d0adeadbeef"), w).
Proof. reflexivity. Qed.

(** Whatever is not URL-shaped comes back unchanged and unannounced: the
    starred class matches every input, and a match object is true. *)
Lemma plain_input_returned (E : Env) (i : string) (w : world) :
  url_shaped i = false ->
  extract_id_from_input E i w = (Ret (Some i), w).
Proof.
  intros Hurl. unfold extract_id_from_input. unfold url_shaped in Hurl.
  rewrite Hurl. reflexivity.
Qed.

(** C4 at its failing input.  An input with a hyphen is not URL-shaped and
    does not consist of the identifier class, yet the extraction returns it
    as the identifier and prints no warning, in every environment. *)
Theorem hyphenated_input_accepted (E : Env) (w : world) :
  url_shaped "abc-def" = false /\
  Py.all_chars Py.is_alnum "abc-def" = false /\
  extract_id_from_input E "abc-def" w = (Ret (Some "abc-def"), w).
Proof. repeat split. Qed.

(** What becomes of the two inputs further down the script.  The hyphenated
    one is handed to the fetch, which asks for its download URL. *)
Lemma hyphenated_input_reaches_fetch :
  In (EvRetrieve "https://www.sharelatex.com/project/abc-def/download/zip" "sharelatex.zip")
     (trace (snd (main Sample.env
                    {| opt_message := EmptyString; do_push := false;
                       do_sharelatex_push := false; opt_dont_commit := true |}
                    ["abc-def"] Sample.fresh))).
Proof. vm_compute. tauto. Qed.

(** The URL without identifier counts as no identifier at all: in a
    directory synchronised before, the run silently takes the saved one. *)
Lemma url_without_identifier_falls_back :
  In (EvRetrieve "https://www.sharelatex.com/project/abc123/download/zip" "sharelatex.zip")
     (trace (snd (main Sample.env
                    {| opt_message := EmptyString; do_push := false;
                       do_sharelatex_push := false; opt_dont_commit := true |}
                    ["https://www.sharelatex.com/project/"] Sample.synced))).
Proof. vm_compute. tauto. Qed.

(** ** Identifier resolution *)

Lemma alnum_char_plain (c : ascii) :
  Py.is_alnum c = true ->
  Py.is_space c = false /\ Ascii.eqb c Py.LF = false /\ Ascii.eqb c Py.CR = false.
Proof.
  destruct c as [[] [] [] [] [] [] [] []]; vm_compute; intros H;
    first [discriminate H | repeat split].
Qed.

Lemma readlines_identifier (I : string) :
  Py.all_chars Py.is_alnum I = true ->
  Py.readlines (I +:+ Py.nl) = [I +:+ Py.nl].
Proof.
  induction I as [|c I IH]; [reflexivity |]. intros H. simpl in H.
  apply andb_prop in H as [Hc HI]. apply alnum_char_plain in Hc as (_ & Hlf & Hcr).
  rewrite append_cons. simpl. rewrite Hlf, Hcr, (IH HI). reflexivity.
Qed.

Lemma rstrip_identifier (I : string) :
  Py.all_chars Py.is_alnum I = true -> Py.rstrip (I +:+ Py.nl) = I.
Proof.
  induction I as [|c I IH]; [reflexivity |]. intros H. simpl in H.
  apply andb_prop in H as [Hc HI]. apply alnum_char_plain in Hc as (Hsp & _ & _).
  rewrite append_cons. simpl. rewrite (IH HI), Hsp, andb_false_r. reflexivity.
Qed.

Lemma strip_identifier (I : string) :
  Py.all_chars Py.is_alnum I = true -> Py.strip (I +:+ Py.nl) = I.
Proof.
  intros H. unfold Py.strip. destruct I as [|c I]; [reflexivity |].
  pose proof H as H'. simpl in H'. apply andb_prop in H' as [Hc _].
  apply alnum_char_plain in Hc as (Hsp & _ & _).
  rewrite append_cons. simpl. rewrite Hsp.
  rewrite <- append_cons. apply rstrip_identifier, H.
Qed.

(** C10. With one source only, that source is the identifier of the run
    and nobody is asked: the world is left as it was, so nothing was
    printed and no line of standard input was read. *)
Theorem determine_id_single_source (E : Env) (I : string) (w : world) :
  I <> EmptyString ->
  Py.all_chars Py.is_alnum I = true ->
  (fs w !! ".sharelatex-git" = None ->
   determine_id E (Some I) w = (Ret (Some I), w)) /\
  (fs w !! ".sharelatex-git" = Some (File (I +:+ Py.nl)) ->
   determine_id E None w = (Ret (Some I), w)).
Proof.
  intros Hne Halnum. split; intros Hfile.
  - unfold determine_id, read_saved_sharelatex_document, try_except, bind, open_r.
    rewrite Hfile. simpl. destruct I; [contradiction | reflexivity].
  - unfold determine_id, read_saved_sharelatex_document, try_except, bind, open_r.
    rewrite Hfile. simpl. unfold Py.readline.
    rewrite (readlines_identifier I Halnum). simpl.
    rewrite (strip_identifier I Halnum).
    destruct I; [contradiction | reflexivity].
Qed.

Lemma determine_id_single_source_witness :
  determine_id Sample.env (Some "abc123") Sample.fresh
    = (Ret (Some "abc123"), Sample.fresh) /\
  determine_id Sample.env None Sample.synced = (Ret (Some "abc123"), Sample.synced).
Proof.
  split.
  - apply (determine_id_single_source Sample.env "abc123" Sample.fresh);
      [discriminate | reflexivity | reflexivity].
  - apply (determine_id_single_source Sample.env "abc123" Sample.synced);
      [discriminate | reflexivity | reflexivity].
Defined.

(** ** The commit message *)

Lemma year_digits (y : Z) :
  (1000 <= y <= 9999)%Z -> Py.str_of_Z y = digits4 y.
Proof.
  intros Hy.
  assert (Hall : forallb (fun n => String.eqb (Py.str_of_Z (Z.of_nat n))
                                     (digits4 (Z.of_nat n)))
                   (seq 1000 (9 * 1000)) = true)
    by (vm_compute; reflexivity).
  rewrite forallb_forall in Hall.
  rewrite <- (Z2Nat.id y) by lia. apply String.eqb_eq, Hall, in_seq. lia.
Qed.

Lemma pad2_digits (n : Z) : (0 <= n <= 99)%Z -> Py.pad2 n = digits2 n.
Proof.
  intros Hn.
  assert (Hall : forallb (fun n => String.eqb (Py.pad2 (Z.of_nat n))
                                     (digits2 (Z.of_nat n)))
                   (seq 0 100) = true)
    by (vm_compute; reflexivity).
  rewrite forallb_forall in Hall.
  rewrite <- (Z2Nat.id n) by lia. apply String.eqb_eq, Hall, in_seq. lia.
Qed.

(** On a time of the calendar the format string of [get_timestamp] gives
    the documented timestamp. *)
Lemma strftime_documented (t : struct_time) :
  calendar t -> strftime t = documented_timestamp t.
Proof.
  intros (Hy & Hm & Hd & HH & HM & HS). unfold strftime, documented_timestamp.
  rewrite (year_digits _ Hy).
  rewrite !pad2_digits by lia. reflexivity.
Qed.

Lemma quiet_not_a_command e : quiet e = true -> not_a_command e = true.
Proof. destruct e; simpl; congruence. Qed.

Lemma bind_ret {A B} (m : M A) (k : A -> M B) (w w1 : world) (a : A) :
  m w = (Ret a, w1) -> bind m k w = k a w1.
Proof. intros H. unfold bind. now rewrite H. Qed.

(** A command that exits with status zero returns its output and leaves
    one event. *)
Lemma run_cmd_ok (E : Env) (cmd : string) (allow_fail : bool) (w : world) :
  fst (shell E (trace w) cmd) = 0%Z ->
  run_cmd E cmd allow_fail w
    = (Ret (snd (shell E (trace w) cmd)), add_event (EvCmd cmd) w).
Proof.
  intros H. unfold run_cmd, popen, bind. simpl. rewrite H.
  rewrite andb_false_r. reflexivity.
Qed.

(** Whatever its status, a command leaves its event and then at most the
    line of the fatal error. *)
Lemma run_cmd_trace (E : Env) (cmd : string) (allow_fail : bool) (w : world) :
  exists rest,
    trace (snd (run_cmd E cmd allow_fail w)) = trace w ++ EvCmd cmd :: rest /\
    forallb not_a_command rest = true.
Proof.
  unfold run_cmd, popen. unfold bind at 1.
  set (process := shell E (trace w) cmd).
  assert (Hrest : spec not_a_command (@any output)
            ((if negb allow_fail && negb (process.1 =? 0)%Z
              then fatal_error E
                     ("Error executing " +:+ dq +:+ cmd +:+ dq +:+ ": error code " +:+
                      Py.str_of_Z process.1 +:+ ". Output: " +:+
                      Repr.bytes (raw_bytes process.2))
              else ret tt) ;;; ret process.2)).
  { repeat first [ spec_step | apply spec_fatal_error, quiet_not_a_command ]. }
  destruct (Hrest (add_event (EvCmd cmd) w)) as [(rest & Htr & Hok) _].
  exists rest. split; [| exact Hok].
  rewrite Htr. simpl. now rewrite <- app_assoc.
Qed.

(** C5. Once staging has gone through, the commit command carries exactly
    the documented message between its quotes: marker, title when one is
    known, the documented timestamp of the clock at that moment, and the
    free text after one space when one was supplied; nothing else is run. *)
Theorem commit_message_format
    (E : Env) (message : string) (title : option string) (w : world) :
  (forall h c, Py.startswith "git commit" c = false -> fst (shell E h c) = 0%Z) ->
  (forall h, exists root,
     snd (shell E h "git rev-parse --show-toplevel") = Text root) ->
  (forall h, calendar (localtime E h)) ->
  exists git_ignore rest,
    trace (snd (commit_all_changes E message title w)) =
      trace w ++
      [ EvCmd "git add -A .";
        EvCmd "git rev-parse --show-toplevel";
        EvCmd ("git add -A " +:+ git_ignore);
        EvCmd ("git commit -m" +:+ dq +:+
               documented_message title
                 (documented_timestamp
                    (localtime E
                       (trace w ++
                        [ EvCmd "git add -A .";
                          EvCmd "git rev-parse --show-toplevel";
                          EvCmd ("git add -A " +:+ git_ignore) ])))
                 message +:+ dq) ] ++ rest /\
    forallb not_a_command rest = true.
Proof.
  intros Hok Htext Hcal.
  set (w1 := add_event (EvCmd "git add -A .") w).
  set (w2 := add_event (EvCmd "git rev-parse --show-toplevel") w1).
  destruct (Htext (trace w1)) as [root Hroot].
  set (git_ignore := Py.path_join (Py.strip root) ".gitignore").
  set (w3 := add_event (EvCmd ("git add -A " +:+ git_ignore)) w2).
  pose proof (run_cmd_ok E "git add -A ." false w
                (Hok (trace w) "git add -A ." eq_refl)) as H1.
  pose proof (run_cmd_ok E "git rev-parse --show-toplevel" false w1
                (Hok (trace w1) "git rev-parse --show-toplevel" eq_refl)) as H2.
  pose proof (run_cmd_ok E ("git add -A " +:+ git_ignore) false w2
                (Hok (trace w2) ("git add -A " +:+ git_ignore) eq_refl)) as H3.
  fold w1 in H1. fold w2 in H2. fold w3 in H3. rewrite Hroot in H2.
  exists git_ignore.
  assert (Hnow : trace w ++
                 [ EvCmd "git add -A ."; EvCmd "git rev-parse --show-toplevel";
                   EvCmd ("git add -A " +:+ git_ignore) ] = trace w3).
  { unfold w3, w2, w1. cbn [trace add_event]. now rewrite <- !app_assoc. }
  rewrite Hnow. rewrite <- (strftime_documented _ (Hcal (trace w3))).
  unfold commit_all_changes, get_git_ignore, get_base_git_root, bind.
  rewrite H1, H2. unfold decode, ret at 1 2 3. fold git_ignore. rewrite H3.
  unfold documented_message, get_timestamp, ret.
  destruct (Py.truthy title), (Py.is_empty message); cbn [negb];
    match goal with
    | |- context [run_cmd E ?c false w3] =>
        destruct (run_cmd_trace E c false w3) as (rest & Htr & Hrest);
        exists rest; destruct (run_cmd E c false w3) as [[out | e] w4]
    end;
    cbn [snd] in *; rewrite Htr; unfold w3, w2, w1; cbn [trace add_event];
    (split; [| exact Hrest]);
    rewrite <- !app_assoc; cbn [app]; rewrite ?append_assoc; reflexivity.
Qed.

Lemma commit_message_format_witness :
  exists git_ignore rest,
    trace (snd (commit_all_changes Sample.env "Draft intro" (Some "Thesis") Sample.fresh)) =
      trace Sample.fresh ++
      [ EvCmd "git add -A .";
        EvCmd "git rev-parse --show-toplevel";
        EvCmd ("git add -A " +:+ git_ignore);
        EvCmd ("git commit -m" +:+ dq +:+
               documented_message (Some "Thesis")
                 (documented_timestamp
                    (localtime Sample.env
                       (trace Sample.fresh ++
                        [ EvCmd "git add -A .";
                          EvCmd "git rev-parse --show-toplevel";
                          EvCmd ("git add -A " +:+ git_ignore) ])))
                 "Draft intro" +:+ dq) ] ++ rest /\
    forallb not_a_command rest = true.
Proof.
  apply (commit_message_format Sample.env "Draft intro" (Some "Thesis") Sample.fresh).
  - intros h c _. unfold Sample.env, Sample.answer. simpl.
    repeat match goal with |- context [String.eqb ?a ?b] => destruct (String.eqb a b) end;
      reflexivity.
  - intros h. eexists. reflexivity.
  - intros h. unfold calendar. simpl. lia.
Defined.

(** The example of the documentation, run: title [Thesis], free text
    [Draft intro], clock at 2024/01/02 03:04:05. *)
Lemma commit_message_example :
  documented_timestamp Sample.noon = "2024/01/02 03:04:05" /\
  last (Sample.commands
          (snd (commit_all_changes Sample.env "Draft intro" (Some "Thesis") Sample.fresh)))
    = Some ("git commit -m" +:+ dq +:+
            "[sharelatex-git-integration Thesis 2024/01/02 03:04:05] Draft intro" +:+ dq).
Proof. vm_compute. split; reflexivity. Qed.

(** The other three combinations, as the documented format spells them. *)
Lemma documented_message_combinations :
  documented_message (Some "Thesis") "2024/01/02 03:04:05" EmptyString
    = "[sharelatex-git-integration Thesis 2024/01/02 03:04:05]" /\
  documented_message None "2024/01/02 03:04:05" "Draft intro"
    = "[sharelatex-git-integration 2024/01/02 03:04:05] Draft intro" /\
  documented_message None "2024/01/02 03:04:05" EmptyString
    = "[sharelatex-git-integration 2024/01/02 03:04:05]".
Proof. repeat split. Qed.

(** ** The downloaded artifact *)

Lemma make_dirs_keeps_file (dirs : list string) (f f' : gmap string node)
    (p c : string) :
  make_dirs dirs f = Some f' -> f !! p = Some (File c) -> f' !! p = Some (File c).
Proof.
  revert f. induction dirs as [|d dirs IH]; simpl; intros f H Hp.
  - now injection H as <-.
  - destruct (f !! d) as [[cd |] |] eqn:Hd; [discriminate | |];
      (apply (IH _ H); rewrite lookup_insert_ne; [exact Hp | congruence]).
Qed.

Lemma extract_member_keeps_file (m : string * node) (f f' : gmap string node)
    (p c : string) :
  extract_member m f = Some f' -> f !! p = Some (File c) ->
  exists c', f' !! p = Some (File c').
Proof.
  destruct m as [k n]. unfold extract_member. simpl. intros H Hp.
  destruct (make_dirs (ancestors k) f) as [f1 |] eqn:Hd; [| discriminate].
  pose proof (make_dirs_keeps_file _ _ _ _ _ Hd Hp) as Hp1.
  destruct (decide (k = p)) as [-> | Hne].
  - rewrite Hp1 in H. destruct n as [cm |]; [| discriminate].
    injection H as <-. exists cm. apply lookup_insert_eq.
  - exists c.
    destruct n, (f1 !! k) as [[|]|]; try discriminate;
      injection H as <-; now rewrite lookup_insert_ne.
Qed.

(** Extraction never turns a regular file into something else. *)
Lemma extract_members_keeps_file (ms : list (string * node)) (f : gmap string node)
    (p c : string) :
  f !! p = Some (File c) ->
  exists c', fst (extract_members ms f) !! p = Some (File c').
Proof.
  revert f c. induction ms as [|m ms IH]; simpl; intros f c Hp.
  - now exists c.
  - destruct (extract_member m f) as [f' |] eqn:Hm; [| now exists c].
    destruct (extract_member_keeps_file _ _ _ _ _ Hm Hp) as [c' Hp'].
    apply (IH _ _ Hp').
Qed.

Lemma log_prints (E : Env) (message : string) (w : world) :
  exists line, log_ E message w = (Ret tt, add_event (EvPrint line) w).
Proof. eexists. reflexivity. Qed.

Lemma bind_raise {A B} (m : M A) (k : A -> M B) (w w1 : world) (e : exn) :
  m w = (Raise e, w1) -> bind m k w = (Raise e, w1).
Proof. intros H. unfold bind. now rewrite H. Qed.

Lemma try_ret {A} (m h : M A) caught (w w1 : world) (a : A) :
  m w = (Ret a, w1) -> try_except m caught h w = (Ret a, w1).
Proof. intros H. unfold try_except. now rewrite H. Qed.

Lemma try_caught {A} (m h : M A) caught (w w1 : world) (e : exn) :
  m w = (Raise e, w1) -> caught e = true -> try_except m caught h w = h w1.
Proof. intros H Hc. unfold try_except. now rewrite H, Hc. Qed.

Lemma try_uncaught {A} (m h : M A) caught (w w1 : world) (e : exn) :
  m w = (Raise e, w1) -> caught e = false ->
  try_except m caught h w = (Raise e, w1).
Proof. intros H Hc. unfold try_except. now rewrite H, Hc. Qed.

(** The last step of the fetch never fails: the title or nothing. *)
Lemma title_lookup_returns (E : Env) (url : string) (w : world) :
  exists title,
    try_except
      (text <- urlopen_read E url ;;
       match Re.first_title text with
       | Some title => ret (Some title)
       | None => raise IndexError
       end)
      anything (ret None) w
    = (Ret title, add_event (EvUrlopen url) w).
Proof.
  unfold try_except, bind, urlopen_read.
  destruct (page E (trace w) url) as [text |]; simpl.
  - destruct (Re.first_title text) as [t |]; eexists; reflexivity.
  - eexists; reflexivity.
Qed.

Lemma fatal_error_line {A} (E : Env) (err : string) (w : world) :
  exists line,
    @fatal_error E A err w = (Raise SystemExit, add_event (EvPrint line) w) /\
    carries err line.
Proof. eexists. split; [reflexivity |]. eexists _, _. reflexivity. Qed.

(** Without the move out of the nested folder, what is left after the
    removal is the title lookup: it returns and touches no file. *)
Lemma title_lookup_keeps_files (E : Env) (id : option string) (w : world) :
  exists title w',
    after_removal E id false w = (Ret title, w') /\
    fs w' = fs w /\
    trace w' = trace w ++ [EvUrlopen ("https://www.sharelatex.com/project/" +:+ Py.fmt id)].
Proof.
  destruct (title_lookup_returns E ("https://www.sharelatex.com/project/" +:+ Py.fmt id) w)
    as [title H].
  exists title, (add_event (EvUrlopen ("https://www.sharelatex.com/project/" +:+ Py.fmt id)) w).
  split; [| split; reflexivity].
  unfold after_removal. cbn [bind ret]. exact H.
Qed.

(** A step followed by the fatal error never returns, whatever type the
    place asks for. *)
Lemma fatal_error_after {A B} (E : Env) (m : M unit) (err : string) (w : world) :
  exists e w',
    (m ;;; @fatal_error E A err) w = (Raise e, w') /\
    (m ;;; @fatal_error E B err) w = (Raise e, w').
Proof.
  unfold bind. destruct (m w) as [[[] | e] w1]; eexists _, _; split; reflexivity.
Qed.

Lemma extract_archive_files (a : archive) (f : gmap string node) :
  snd (extract_archive a f) = fst (extract_members (members a) f).
Proof.
  unfold extract_archive.
  destruct (negb (snd (extract_members (members a) f))); [reflexivity |].
  destruct (ending a); reflexivity.
Qed.

(** The fetch as far as the end of the extraction when the download goes
    through: what is left to run, and the world it runs in. *)
Lemma fetch_updates_extracted
    (E : Env) (id : option string) (skip : bool) (w : world) (payload : string) :
  (forall h u, download E h u = Some payload) ->
  fs w !! zip_name <> Some Dir ->
  exists evs wd c,
    trace wd = trace w ++ evs /\
    fs wd !! zip_name = Some (File c) /\
    fetch_updates E id skip w =
      match fst (extract_archive (unzip E payload)
                   (<[zip_name := File payload]> (fs w))) with
      | Ret _ => (os_remove zip_name ;;; after_removal E id skip) wd
      | Raise e =>
          if only_BadZipFile e
          then (os_remove zip_name ;;;
                fatal_error E "Downloaded file is not a zip file. Have you made sure that your project is public?") wd
          else (Raise e, wd)
      end.
Proof.
  intros Hdl Hnodir.
  set (url := "https://www.sharelatex.com/project/" +:+ Py.fmt id +:+ "/download/zip").
  destruct (log_prints E ("Downloading files from " +:+ url +:+ "...") w) as [l1 H1].
  set (wa := add_event (EvPrint l1) w) in H1.
  set (f1 := <[zip_name := File payload]> (fs w)).
  set (wb := set_fs f1 (add_event (EvRetrieve url zip_name) wa)).
  assert (H2 : urlretrieve E url zip_name wa = (Ret tt, wb)).
  { unfold urlretrieve. rewrite Hdl. simpl.
    destruct (fs w !! zip_name) as [[c |] |] eqn:Hz; [reflexivity | | reflexivity].
    now destruct Hnodir. }
  destruct (log_prints E "Decompressing files..." wb) as [l2 H3].
  set (wc := add_event (EvPrint l2) wb) in H3.
  set (res := extract_archive (unzip E payload) f1).
  set (wd := set_fs (snd res) (add_event (EvExtract zip_name) wc)).
  destruct (extract_members_keeps_file (members (unzip E payload)) f1 zip_name payload)
    as [c Hc]; [apply lookup_insert_eq |].
  rewrite <- extract_archive_files in Hc. fold res in Hc.
  assert (H4 : extractall E zip_name wc = (fst res, wd)).
  { unfold extractall. simpl. unfold f1 at 1. rewrite lookup_insert_eq. reflexivity. }
  exists [EvPrint l1; EvRetrieve url zip_name; EvPrint l2; EvExtract zip_name], wd, c.
  split; [| split].
  - simpl. now rewrite <- !app_assoc.
  - exact Hc.
  - unfold fetch_updates. fold url.
    rewrite (bind_ret _ _ _ _ _ H1).
    rewrite (bind_ret _ _ _ _ _ (try_ret _ _ _ _ _ _ H2)).
    rewrite (bind_ret _ _ _ _ _ H3).
    destruct (fst res) as [[] | e] eqn:Hres.
    + rewrite (bind_ret _ _ _ _ _ (try_ret _ _ _ _ _ _ H4)). reflexivity.
    + destruct (only_BadZipFile e) eqn:Hcaught.
      * destruct (fatal_error_after (A := unit) (B := option string) E
                    (os_remove zip_name)
                    "Downloaded file is not a zip file. Have you made sure that your project is public?"
                    wd) as (e' & w' & Ha & Hb).
        rewrite Hb. apply bind_raise.
        rewrite (try_caught _ _ _ _ _ _ H4 Hcaught). exact Ha.
      * apply bind_raise. exact (try_uncaught _ _ _ _ _ _ H4 Hcaught).
Qed.

Lemma os_remove_file (p c : string) (w : world) :
  fs w !! p = Some (File c) ->
  os_remove p w = (Ret tt, add_event (EvRemove p) (set_fs (delete p (fs w)) w)).
Proof. intros H. unfold os_remove. now rewrite H. Qed.

(** C8. A download that the zip library rejects as no valid archive is
    deleted, and then the process leaves with the fatal error whose line
    asks whether the project is public; a download that extracts is deleted
    before the fetch goes on to its remaining steps.  In both outcomes the
    artifact is gone from the moment of the removal. *)
Theorem fetch_updates_deletes_artifact
    (E : Env) (id : option string) (skip : bool) (w : world) (payload : string) :
  (forall h u, download E h u = Some payload) ->
  fs w !! zip_name <> Some Dir ->
  (fst (extract_archive (unzip E payload) (<[zip_name := File payload]> (fs w)))
     = Raise BadZipFile ->
   exists evs line w',
     fetch_updates E id skip w = (Raise SystemExit, w') /\
     fs w' !! zip_name = None /\
     trace w' = trace w ++ evs ++ [EvRemove zip_name; EvPrint line] /\
     carries "Downloaded file is not a zip file. Have you made sure that your project is public?"
       line) /\
  (fst (extract_archive (unzip E payload) (<[zip_name := File payload]> (fs w)))
     = Ret tt ->
   exists evs w1,
     fetch_updates E id skip w = after_removal E id skip w1 /\
     fs w1 !! zip_name = None /\
     trace w1 = trace w ++ evs ++ [EvRemove zip_name] /\
     (skip = false ->
      exists title w',
        fetch_updates E id skip w = (Ret title, w') /\ fs w' !! zip_name = None)).
Proof.
  intros Hdl Hnodir.
  destruct (fetch_updates_extracted E id skip w payload Hdl Hnodir)
    as (evs & wd & c & Htr & Hzip & Hrun).
  pose proof (os_remove_file zip_name c wd Hzip) as Hrm.
  set (we := add_event (EvRemove zip_name) (set_fs (delete zip_name (fs wd)) wd)) in Hrm.
  split; intros Hres; rewrite Hres in Hrun.
  - destruct (fatal_error_line (A := option string) E
                "Downloaded file is not a zip file. Have you made sure that your project is public?"
                we) as (line & Hfatal & Hline).
    exists evs, line, (add_event (EvPrint line) we).
    split; [| split; [| split]].
    + rewrite Hrun. cbn [only_BadZipFile].
      rewrite (bind_ret _ _ _ _ _ Hrm). exact Hfatal.
    + simpl. apply lookup_delete_eq.
    + simpl. rewrite Htr, <- !app_assoc. reflexivity.
    + exact Hline.
  - exists evs, we.
    split; [| split; [| split]].
    + rewrite Hrun. exact (bind_ret _ (fun _ => after_removal E id skip) _ _ _ Hrm).
    + simpl. apply lookup_delete_eq.
    + simpl. rewrite Htr, <- !app_assoc. reflexivity.
    + intros ->.
      destruct (title_lookup_keeps_files E id we) as (title & w' & Hrest & Hfs & _).
      exists title, w'. split.
      * rewrite Hrun, (bind_ret _ _ _ _ _ Hrm). exact Hrest.
      * rewrite Hfs. simpl. apply lookup_delete_eq.
Qed.

Lemma fetch_updates_deletes_artifact_witness :
  (exists evs line w',
     fetch_updates Sample.env_private (Some "abc123") true Sample.fresh
       = (Raise SystemExit, w') /\
     fs w' !! zip_name = None /\
     trace w' = trace Sample.fresh ++ evs ++ [EvRemove zip_name; EvPrint line] /\
     carries "Downloaded file is not a zip file. Have you made sure that your project is public?"
       line) /\
  (exists evs w1,
     fetch_updates Sample.env (Some "abc123") true Sample.fresh
       = after_removal Sample.env (Some "abc123") true w1 /\
     fs w1 !! zip_name = None /\
     trace w1 = trace Sample.fresh ++ evs ++ [EvRemove zip_name] /\
     (true = false ->
      exists title w',
        fetch_updates Sample.env (Some "abc123") true Sample.fresh = (Ret title, w') /\
        fs w' !! zip_name = None)).
Proof.
  split.
  - apply (fetch_updates_deletes_artifact Sample.env_private (Some "abc123") true
             Sample.fresh "<html>Log in</html>");
      [intros; reflexivity | discriminate | reflexivity].
  - apply (fetch_updates_deletes_artifact Sample.env (Some "abc123") true
             Sample.fresh "PK");
      [intros; reflexivity | discriminate | reflexivity].
Defined.

(** The handler names one exception.  An extraction that ends with another
    one (a member that does not decompress, a method the library lacks, an
    encrypted member, a path in the way) passes it on, and the artifact
    stays where the download put it. *)
Lemma fetch_updates_unhandled_error_keeps_artifact
    (E : Env) (id : option string) (skip : bool) (w : world) (payload : string)
    (e : exn) :
  (forall h u, download E h u = Some payload) ->
  fs w !! zip_name <> Some Dir ->
  fst (extract_archive (unzip E payload) (<[zip_name := File payload]> (fs w)))
    = Raise e ->
  e <> BadZipFile ->
  exists w' c,
    fetch_updates E id skip w = (Raise e, w') /\
    fs w' !! zip_name = Some (File c).
Proof.
  intros Hdl Hnodir Hres He.
  destruct (fetch_updates_extracted E id skip w payload Hdl Hnodir)
    as (evs & wd & c & Htr & Hzip & Hrun).
  rewrite Hres in Hrun.
  assert (Hnot : only_BadZipFile e = false) by (destruct e; try reflexivity; congruence).
  rewrite Hnot in Hrun.
  exists wd, c. split; [exact Hrun | exact Hzip].
Qed.

(** A run of it: the archive holds a member that does not decompress. *)
Lemma corrupt_member_leaves_artifact :
  let r := fetch_updates Sample.env_corrupt (Some "abc123") false Sample.fresh in
  fst r = Raise ZlibError /\
  Sample.text_of zip_name (snd r) = Some "PK" /\
  existsb (fun e => match e with EvRemove _ => true | _ => false end) (trace (snd r))
    = false.
Proof. vm_compute. repeat split. Qed.

(** ** The sync state file *)












(** The two endings of the write, run: a first synchronisation leaves the
    state file with the identifier and a line end; with a directory of that
    name in the way the run still completes, the directory stays and the
    last line but one of the log is the warning. *)
Lemma state_file_written_or_warned :
  fst Sample.run_plain = Ret tt /\
  Sample.text_of state_file (snd Sample.run_plain) = Some ("abc123" +:+ Py.nl) /\
  fst Sample.run_blocked = Ret tt /\
  fs (snd Sample.run_blocked) !! state_file = Some Dir /\
  match last (removelast (trace (snd Sample.run_blocked))) with
  | Some (EvPrint line) => Py.contains "Problem creating .sharelatex-git file" line
  | _ => false
  end = true.
Proof. vm_compute. repeat split. Qed.


(** ** The exclusion file *)

Lemma readlines_nonempty (c : ascii) (s : string) : Py.readlines (String c s) <> [].
Proof.
  simpl. destruct (Ascii.eqb c Py.LF); [discriminate |].
  destruct (Ascii.eqb c Py.CR).
  - destruct s as [|d s]; [discriminate |]. destruct (Ascii.eqb d Py.LF); discriminate.
  - destruct (Py.readlines s); discriminate.
Qed.

Lemma readlines_after_newline_bounded (n : nat) (a b : string) :
  String.length a <= n ->
  Py.readlines ((a +:+ Py.nl) +:+ b) = Py.readlines (a +:+ Py.nl) ++ Py.readlines b.
Proof.
  revert a. induction n as [|n IH]; intros a Hlen.
  - destruct a; [reflexivity | simpl in Hlen; lia].
  - destruct a as [|c r]; [reflexivity |]. simpl in Hlen.
    rewrite !append_cons. simpl.
    destruct (Ascii.eqb c Py.LF).
    + rewrite IH by lia. reflexivity.
    + destruct (Ascii.eqb c Py.CR).
      * destruct r as [|d r']; [reflexivity |]. rewrite !append_cons.
        destruct (Ascii.eqb d Py.LF).
        -- simpl in Hlen. rewrite IH by lia. reflexivity.
        -- rewrite <- !append_cons. rewrite IH by lia. reflexivity.
      * rewrite IH by lia.
        destruct (Py.readlines (r +:+ Py.nl)) as [|l ls] eqn:Hr; [| reflexivity].
        exfalso. destruct r; [discriminate Hr |].
        rewrite append_cons in Hr. now apply readlines_nonempty in Hr.
Qed.

(** Lines read after a line end do not depend on what precedes it. *)
Lemma readlines_after_newline (a b : string) :
  Py.readlines ((a +:+ Py.nl) +:+ b) = Py.readlines (a +:+ Py.nl) ++ Py.readlines b.
Proof. apply (readlines_after_newline_bounded (String.length a)). lia. Qed.

Lemma readlines_terminated (text b : string) :
  terminated text ->
  Py.readlines (text +:+ b) = Py.readlines text ++ Py.readlines b.
Proof.
  intros [-> | [body ->]]; [reflexivity | apply readlines_after_newline].
Qed.

Lemma in_list_app (s : string) (l1 l2 : list string) :
  Py.in_list s (l1 ++ l2) = Py.in_list s l1 || Py.in_list s l2.
Proof. apply existsb_app. Qed.

(** On a terminated text the update reaches a fixed point at once. *)
Lemma updated_idempotent (text : string) :
  terminated text -> updated (updated text) = updated text.
Proof.
  intros Hterm.
  assert (Hall : forall entry,
            In entry ["sharelatex-git.py"; "sharelatex-git"; ".sharelatex-git"] ->
            Py.in_list entry (map Py.strip (Py.readlines (updated text))) = true).
  { intros entry Hin. unfold updated at 1.
    rewrite !append_assoc, (readlines_terminated _ _ Hterm), map_app, in_list_app.
    unfold missing.
    set (lines := map Py.strip (Py.readlines text)).
    simpl in Hin.
    destruct (Py.in_list "sharelatex-git.py" lines) eqn:H1,
             (Py.in_list "sharelatex-git" lines) eqn:H2,
             (Py.in_list ".sharelatex-git" lines) eqn:H3;
      destruct Hin as [<- | [<- | [<- | []]]];
      rewrite ?H1, ?H2, ?H3; try reflexivity; apply orb_true_r. }
  unfold updated at 1. unfold missing.
  rewrite !Hall by (simpl; tauto). now rewrite !append_nil_r.
Qed.

Lemma set_fs_same (w : world) : set_fs (fs w) w = w.
Proof. now destruct w. Qed.

Lemma write_if_not_there_effect (lines : list string) (f entry text : string)
    (w : world) :
  fs w !! f = Some (File text) ->
  write_if_not_there lines f entry w
    = (Ret tt, set_fs (<[f := File (text +:+ missing entry lines)]> (fs w)) w).
Proof.
  intros Hf. unfold write_if_not_there, missing, f_write.
  destruct (Py.in_list entry lines); simpl.
  - rewrite append_nil_r, (insert_id _ _ _ Hf), set_fs_same. reflexivity.
  - now rewrite Hf.
Qed.

(** The update as a function of the text of the exclusion file: when the
    repository root is [root], the file at its [.gitignore] ends up with
    [updated] of its former text, and is created when it was not there. *)
Lemma ensure_gitignore_effect (E : Env) (root text : string) (w : world) :
  (forall h, shell E h "git rev-parse --show-toplevel" = (0%Z, Text root)) ->
  let git_ignore := Py.path_join (Py.strip root) ".gitignore" in
  fs w !! git_ignore = Some (File text) \/
  (fs w !! git_ignore = None /\ text = EmptyString) ->
  exists w',
    ensure_gitignore_is_fine E w = (Ret tt, w') /\
    fs w' = <[git_ignore := File (updated text)]> (fs w).
Proof.
  intros Hroot git_ignore Hfile.
  set (w1 := add_event (EvCmd "git rev-parse --show-toplevel") w).
  assert (H1 : get_git_ignore E w = (Ret git_ignore, w1)).
  { unfold get_git_ignore, get_base_git_root, bind.
    rewrite run_cmd_ok by now rewrite Hroot.
    rewrite Hroot. reflexivity. }
  set (lines := map Py.strip (Py.readlines text)).
  assert (H2 : try_except
                 (text <- open_r git_ignore ;;
                  ret (map Py.strip (Py.readlines text)))
                 anything (ret []) w1 = (Ret lines, w1)).
  { unfold try_except, bind, open_r. simpl.
    destruct Hfile as [-> | [-> ->]]; reflexivity. }
  set (w2 := set_fs (<[git_ignore := File text]> (fs w)) w1).
  assert (H3 : open_a git_ignore w1 = (Ret tt, w2)).
  { unfold open_a, w2. simpl.
    destruct Hfile as [Hf | [Hf ->]]; rewrite Hf; [| reflexivity].
    rewrite (insert_id _ _ _ Hf). now rewrite <- (set_fs_same w1) at 1. }
  assert (Hl2 : fs w2 !! git_ignore = Some (File text)) by apply lookup_insert_eq.
  pose proof (write_if_not_there_effect lines git_ignore "sharelatex-git.py" _ w2 Hl2)
    as H4.
  set (w3 := set_fs _ w2) in H4.
  assert (Hl3 : fs w3 !! git_ignore
                = Some (File (text +:+ missing "sharelatex-git.py" lines)))
    by apply lookup_insert_eq.
  pose proof (write_if_not_there_effect lines git_ignore "sharelatex-git" _ w3 Hl3)
    as H5.
  set (w4 := set_fs _ w3) in H5.
  assert (Hl4 : fs w4 !! git_ignore
                = Some (File ((text +:+ missing "sharelatex-git.py" lines) +:+
                              missing "sharelatex-git" lines)))
    by apply lookup_insert_eq.
  pose proof (write_if_not_there_effect lines git_ignore ".sharelatex-git" _ w4 Hl4)
    as H6.
  set (w5 := set_fs _ w4) in H6.
  exists w5. split.
  - unfold ensure_gitignore_is_fine.
    rewrite (bind_ret _ _ _ _ _ H1), (bind_ret _ _ _ _ _ H2).
    apply try_ret.
    rewrite (bind_ret _ _ _ _ _ H3), (bind_ret _ _ _ _ _ H4), (bind_ret _ _ _ _ _ H5).
    exact H6.
  - unfold w5, w4, w3, w2. simpl. rewrite !insert_insert_eq. reflexivity.
Qed.

(** Where the exclusion file is missing, empty or ends with a line end,
    a second update changes nothing. *)
Lemma gitignore_update_idempotent_on_terminated
    (E : Env) (root text : string) (w : world) :
  (forall h, shell E h "git rev-parse --show-toplevel" = (0%Z, Text root)) ->
  let git_ignore := Py.path_join (Py.strip root) ".gitignore" in
  fs w !! git_ignore = Some (File text) \/
  (fs w !! git_ignore = None /\ text = EmptyString) ->
  terminated text ->
  let once := snd (ensure_gitignore_is_fine E w) in
  let twice := snd (ensure_gitignore_is_fine E once) in
  fs once !! git_ignore = Some (File (updated text)) /\ fs twice = fs once.
Proof.
  intros Hroot git_ignore Hfile Hterm once twice.
  destruct (ensure_gitignore_effect E root text w Hroot Hfile) as (w1 & Hrun1 & Hfs1).
  assert (Honce : fs once !! git_ignore = Some (File (updated text))).
  { unfold once. rewrite Hrun1. simpl. rewrite Hfs1. apply lookup_insert_eq. }
  split; [exact Honce |].
  destruct (ensure_gitignore_effect E root (updated text) once Hroot (or_introl Honce))
    as (w2 & Hrun2 & Hfs2).
  unfold twice. rewrite Hrun2. simpl. rewrite Hfs2.
  rewrite (updated_idempotent text Hterm). apply insert_id, Honce.
Qed.

(** C6 at its failing input.  The exclusion file holds [*.aux] without a
    line end.  The first update glues its first entry to that line, so the
    existing line is not preserved and the entry is not a line of the file;
    the second update appends the entry again: the two results differ. *)
Theorem gitignore_update_repeats_on_unterminated_file :
  Sample.text_of "/repo/.gitignore" Sample.ignore_once
    = Some ("*.auxsharelatex-git.py" +:+ Py.nl +:+ "sharelatex-git" +:+ Py.nl +:+
            ".sharelatex-git" +:+ Py.nl) /\
  Sample.text_of "/repo/.gitignore" Sample.ignore_twice
    = Some ("*.auxsharelatex-git.py" +:+ Py.nl +:+ "sharelatex-git" +:+ Py.nl +:+
            ".sharelatex-git" +:+ Py.nl +:+ "sharelatex-git.py" +:+ Py.nl) /\
  fs Sample.ignore_twice <> fs Sample.ignore_once.
Proof.
  split; [vm_compute; reflexivity | split; [vm_compute; reflexivity |]].
  intros H. apply (f_equal (fun f => f !! "/repo/.gitignore")) in H.
  vm_compute in H. discriminate H.
Qed.

(** The same directory with the line end in place: the update is stable. *)
Lemma gitignore_update_stable_on_terminated_file :
  let w := {| fs := {[ "/repo/.gitignore" := File ("*.aux" +:+ Py.nl) ]};
              stdin := []; trace := [] |} in
  let once := snd (ensure_gitignore_is_fine Sample.env w) in
  let twice := snd (ensure_gitignore_is_fine Sample.env once) in
  Sample.text_of "/repo/.gitignore" once
    = Some ("*.aux" +:+ Py.nl +:+ "sharelatex-git.py" +:+ Py.nl +:+
            "sharelatex-git" +:+ Py.nl +:+ ".sharelatex-git" +:+ Py.nl) /\
  fs twice = fs once.
Proof.
  split; [vm_compute; reflexivity |].
  apply (gitignore_update_idempotent_on_terminated Sample.env ("/repo" +:+ Py.nl)
           ("*.aux" +:+ Py.nl)).
  - intros h. reflexivity.
  - left. reflexivity.
  - right. now exists "*.aux".
Qed.
